(** * Row-level security of the volunteer portal

    A shallow embedding of the authorization rules that the SQL migrations
    under [supabase/migrations] install on the portal's database: the role
    lookup [get_current_user_role], the row-level-security policies of the
    five tables, the two derived views, the identity life-cycle triggers,
    [promote_user], and the class-assignment upsert issued by the admin
    dashboard.

    Tables are lists of rows (SQL tables are bags; order is the storage
    order).  Nullable columns are [option]s.  Policy expressions are
    evaluated in SQL's three-valued logic and a row passes only when the
    expression is true. *)

From Stdlib Require Import List String Bool ZArith Lia.
Import ListNotations.
Open Scope string_scope.

Set Implicit Arguments.

(** ** SQL scalars and three-valued logic *)

Definition uuid := string.
Definition text := string.

Module Sql.

(** [None] is SQL's NULL (unknown). *)
Definition tv := option bool.

Definition TRUE : tv := Some true.
Definition FALSE : tv := Some false.
Definition NULL : tv := None.

Definition and3 (a b : tv) : tv :=
  match a, b with
  | Some false, _ | _, Some false => Some false
  | Some true, Some true => Some true
  | _, _ => None
  end.

Definition or3 (a b : tv) : tv :=
  match a, b with
  | Some true, _ | _, Some true => Some true
  | Some false, Some false => Some false
  | _, _ => None
  end.

(** [a = b] on nullable text: NULL as soon as one side is NULL. *)
Definition eq3 (a b : option text) : tv :=
  match a, b with
  | Some x, Some y => Some (String.eqb x y)
  | _, _ => None
  end.

(** [a IS NULL] never yields NULL. *)
Definition is_null {A} (a : option A) : tv :=
  match a with None => Some true | Some _ => Some false end.

(** [EXISTS (subquery)] never yields NULL. *)
Definition exists3 {A} (rows : list A) : tv :=
  match rows with [] => Some false | _ :: _ => Some true end.

(** [a IN (v1, ..., vn)] for a non-null list of literals. *)
Definition in3 (a : option text) (vs : list text) : tv :=
  match a with
  | None => None
  | Some x => Some (existsb (String.eqb x) vs)
  end.

(** A WHERE clause, a USING or a WITH CHECK expression keeps a row only
    when it evaluates to true; false and NULL both reject. *)
Definition is_true (a : tv) : bool :=
  match a with Some true => true | _ => false end.

End Sql.

Infix "&&&" := Sql.and3 (at level 40, left associativity).
Infix "|||" := Sql.or3 (at level 50, left associativity).

(** ** Rows (columns as in the generated [Database] type) *)

Record users_row := {
  u_id : uuid;
  u_email : text;
  u_name : option text;
  u_photo_url : option text;
  u_programme : option text;
  u_role : text;
  u_created_at : option text
}.

Record classes_row := {
  c_id : uuid;
  c_subject : text;
  c_grade : text;
  c_class_label : option text;
  c_description : option text;
  c_created_at : option text
}.

Record class_assignments_row := {
  ca_id : uuid;
  ca_user_id : option uuid;
  ca_class_id : option uuid
}.

Record syllabus_entries_row := {
  se_id : uuid;
  se_class_id : option uuid;
  se_volunteer_id : option uuid;
  se_date_taught : text;
  se_duration_min : option Z;
  se_topics : option (list text);
  se_test_given : option bool;
  se_test_info : option text;
  se_notes : option text;
  se_attachments : option (list text);
  se_approved : option bool;
  se_created_at : option text;
  se_updated_at : option text
}.

Record announcements_row := {
  an_id : uuid;
  an_author_id : option uuid;
  an_class_id : option uuid;
  an_message : text;
  an_pinned : option bool;
  an_expiry_date : option text;
  an_created_at : option text
}.

Record database := {
  users : list users_row;
  classes : list classes_row;
  class_assignments : list class_assignments_row;
  syllabus_entries : list syllabus_entries_row;
  announcements : list announcements_row
}.

(** ** The caller: the claims of the request's token *)

Record session := {
  auth_role : text;          (* auth.role() *)
  auth_uid : option uuid     (* auth.uid()  *)
}.

Definition anon : session :=
  {| auth_role := "anon"; auth_uid := None |}.

Definition authenticated (u : uuid) : session :=
  {| auth_role := "authenticated"; auth_uid := Some u |}.

(** [auth.role() = 'authenticated'] *)
Definition is_authenticated (s : session) : Sql.tv :=
  Sql.eq3 (Some (auth_role s)) (Some "authenticated").

(** ** The role lookup

    [SELECT role FROM public.users WHERE id = auth.uid()], SECURITY DEFINER:
    it reads the whole table, whatever the caller may see.  A SQL function
    returns the first row of its last query, NULL when there is none. *)

Definition get_current_user_role (s : session) (db : database) : option text :=
  match filter (fun u => Sql.is_true (Sql.eq3 (Some (u_id u)) (auth_uid s)))
               (users db) with
  | u :: _ => Some (u_role u)
  | [] => None
  end.

Definition is_admin (s : session) (db : database) : Sql.tv :=
  Sql.eq3 (get_current_user_role s db) (Some "admin").

(** ** Policies and their evaluation

    Every policy of the migrations is permissive: a row passes when one
    applicable policy passes, and when no policy applies nothing passes
    (row-level security is enabled on the five tables). *)

Inductive command := ALL | SELECT | INSERT | UPDATE | DELETE.

Definition command_eqb (a b : command) : bool :=
  match a, b with
  | ALL, ALL | SELECT, SELECT | INSERT, INSERT
  | UPDATE, UPDATE | DELETE, DELETE => true
  | _, _ => false
  end.

Section Policies.

Variable row : Type.

Definition expr := session -> database -> row -> Sql.tv.

Record policy := {
  pol_name : string;
  pol_for : command;
  pol_using : option expr;
  pol_with_check : option expr
}.

(** A [FOR ALL] policy applies to every command. *)
Definition applies_to (c : command) (p : policy) : bool :=
  command_eqb (pol_for p) ALL || command_eqb (pol_for p) c.

Definition using_expr (p : policy) : expr :=
  match pol_using p with
  | Some e => e
  | None => fun _ _ _ => Sql.TRUE
  end.

(** Without a WITH CHECK clause the USING expression checks new rows. *)
Definition with_check_expr (p : policy) : expr :=
  match pol_with_check p with
  | Some e => e
  | None => using_expr p
  end.

Definition passes_using (c : command) (ps : list policy)
           (s : session) (db : database) (r : row) : bool :=
  existsb (fun p => applies_to c p && Sql.is_true (using_expr p s db r)) ps.

Definition passes_check (c : command) (ps : list policy)
           (s : session) (db : database) (r : row) : bool :=
  existsb (fun p => applies_to c p && Sql.is_true (with_check_expr p s db r)) ps.

(** Rows of [rows] that a SELECT issued by [s] returns. *)
Definition visible (ps : list policy) (s : session) (db : database)
           (rows : list row) : list row :=
  filter (passes_using SELECT ps s db) rows.

End Policies.

Arguments Build_policy {row}.

(** ** Statements and their outcome *)

Inductive error :=
| RlsViolation (table : string)
    (* new row violates row-level security policy for table *)
| CheckViolation (constraint : string)
| UniqueViolation (constraint : string)
| NotNullViolation (column : string)
| ForeignKeyViolation (constraint : string)
| RaisedException (message : string)
| MultipleRows
    (* maybeSingle() found more than one row *)
| MissingInput.
    (* the form was submitted without grade or subject *)

Inductive result (A : Type) :=
| Ok (a : A)
| Err (e : error).

Arguments Ok {A}.
Arguments Err {A}.

Definition bind {A B} (m : result A) (k : A -> result B) : result B :=
  match m with
  | Ok a => k a
  | Err e => Err e
  end.

Notation "x <- m ;; k" := (bind m (fun x => k))
  (at level 61, m at next level, right associativity).

Definition guard (b : bool) (e : error) : result unit :=
  if b then Ok tt else Err e.

(** A failed statement rolls its transaction back: the database after a
    request is the new one on success and the old one on error. *)
Definition commit (db : database) (r : result database) : database :=
  match r with
  | Ok db' => db'
  | Err _ => db
  end.

Section Statements.

Variable row : Type.
Variable table : string.
Variable ps : list (policy row).

(** The table's CHECK constraints, on one new row, and its PRIMARY KEY
    and UNIQUE constraints, on the table the statement would leave.  A
    row-level-security failure is reported before a constraint failure. *)
Variable row_ok : row -> result unit.
Variable table_ok : list row -> result unit.

Fixpoint rows_ok (rs : list row) : result unit :=
  match rs with
  | [] => Ok tt
  | r :: rs' => _ <- row_ok r ;; rows_ok rs'
  end.

(** [reads] tells whether the statement needs SELECT rights on the table
    (a WHERE clause over its columns, or RETURNING): the SELECT policies
    then filter the existing rows and check the new ones as well. *)
Definition may_read (reads : bool) (s : session) (db : database)
           (r : row) : bool :=
  if reads then passes_using SELECT ps s db r else true.

(** INSERT: the new row must pass a WITH CHECK of an INSERT policy; the
    policies are evaluated on the database as it is before the statement. *)
Definition insert (reads : bool) (s : session) (db : database)
           (new : row) (rows : list row) : result (list row) :=
  _ <- guard (passes_check INSERT ps s db new && may_read reads s db new)
             (RlsViolation table) ;;
  _ <- row_ok new ;;
  _ <- table_ok (rows ++ [new])%list ;;
  Ok (rows ++ [new])%list.

(** Rows an UPDATE reaches: those of the WHERE clause that pass a USING
    of an UPDATE policy; the others are skipped silently. *)
Definition update_target (reads : bool) (s : session) (db : database)
           (where_ : row -> bool) (r : row) : bool :=
  where_ r && passes_using UPDATE ps s db r && may_read reads s db r.

(** UPDATE: every rewritten row must pass a WITH CHECK of an UPDATE
    policy, or the whole statement fails. *)
Definition update (reads : bool) (s : session) (db : database)
           (where_ : row -> bool) (set : row -> row) (rows : list row)
  : result (list row) :=
  let news := map set (filter (update_target reads s db where_) rows) in
  let rows' :=
    map (fun r => if update_target reads s db where_ r then set r else r)
        rows in
  _ <- guard (forallb (fun r' => passes_check UPDATE ps s db r'
                                 && may_read reads s db r') news)
             (RlsViolation table) ;;
  _ <- rows_ok news ;;
  _ <- table_ok rows' ;;
  Ok rows'.

(** DELETE: rows of the WHERE clause that pass a USING of a DELETE
    policy are removed; the others are skipped silently. *)
Definition delete (reads : bool) (s : session) (db : database)
           (where_ : row -> bool) (rows : list row) : list row :=
  filter (fun r => negb (where_ r && passes_using DELETE ps s db r
                         && may_read reads s db r)) rows.

(** INSERT ... ON CONFLICT (key) DO UPDATE SET ...: the proposed row must
    pass the INSERT check in any case; when a stored row has the same
    key, that row must pass the UPDATE and SELECT policies (an error
    otherwise, not a skip) and is rewritten by [merge], which takes the
    stored row and the proposed one. *)
Variable conflicts : row -> row -> bool.
Variable merge : row -> row -> row.

Definition upsert (s : session) (db : database)
           (new : row) (rows : list row) : result (list row) :=
  _ <- guard (passes_check INSERT ps s db new) (RlsViolation table) ;;
  _ <- row_ok new ;;
  match find (conflicts new) rows with
  | None =>
      _ <- table_ok (rows ++ [new])%list ;;
      Ok (rows ++ [new])%list
  | Some old =>
      let rows' :=
        map (fun r => if conflicts new r then merge r new else r) rows in
      _ <- guard (passes_using UPDATE ps s db old
                  && passes_using SELECT ps s db old
                  && passes_check UPDATE ps s db (merge old new)
                  && passes_using SELECT ps s db (merge old new))
                 (RlsViolation table) ;;
      _ <- row_ok (merge old new) ;;
      _ <- table_ok rows' ;;
      Ok rows'
  end.

End Statements.

(** ** The policy set

    The state the migrations leave.  [20250916130031] drops every policy
    of the five tables and creates the set below; [20250918092526] then
    replaces "Users update own profile" by "Users update own profile
    except role" and adds the CHECK on roles.  The earlier policy scripts
    ("Public can view classes", "Fix critical security vulnerabilities"
    and its revision) create policies under names that [20250916130031]
    creates again or that a later script of theirs drops, so they ran
    before it and nothing of them is left. *)

(** *** class_assignments *)

Definition class_assignments_policies : list (policy class_assignments_row) :=
  [ Build_policy "Users see own assignments" SELECT
      (Some (fun s db ca =>
         Sql.eq3 (ca_user_id ca) (auth_uid s) ||| is_admin s db))
      None;
    Build_policy "Admins manage assignments" ALL
      (Some (fun s db _ => is_admin s db))
      None ].

(** [EXISTS (SELECT 1 FROM class_assignments ca
            WHERE ca.class_id = k AND ca.user_id = auth.uid())]
    inside a policy of another table: the subquery runs as the caller, so
    it ranges over the assignments the caller may see. *)
Definition assigned (s : session) (db : database) (k : option uuid) : Sql.tv :=
  Sql.exists3
    (filter (fun ca => Sql.is_true (Sql.eq3 (ca_class_id ca) k
                                    &&& Sql.eq3 (ca_user_id ca) (auth_uid s)))
            (visible class_assignments_policies s db (class_assignments db))).

(** *** users *)

Definition users_select_policy : policy users_row :=
  Build_policy "Users read own profile or admins read all" SELECT
    (Some (fun s db u => Sql.eq3 (Some (u_id u)) (auth_uid s) ||| is_admin s db))
    None.

(** [(SELECT role FROM public.users WHERE id = auth.uid())] inside the
    WITH CHECK of the update policy: a scalar subquery run as the caller,
    over the users the caller may see, on the rows as they are before the
    statement; NULL when there is no such row. *)
Definition own_stored_role (s : session) (db : database) : option text :=
  match filter (fun u => Sql.is_true (Sql.eq3 (Some (u_id u)) (auth_uid s)))
               (visible [users_select_policy] s db (users db)) with
  | u :: _ => Some (u_role u)
  | [] => None
  end.

Definition users_policies : list (policy users_row) :=
  [ users_select_policy;
    Build_policy "Users update own profile except role" UPDATE
      (Some (fun s _ u => Sql.eq3 (Some (u_id u)) (auth_uid s)))
      (Some (fun s db u =>
         Sql.eq3 (Some (u_id u)) (auth_uid s)
         &&& (Sql.eq3 (Some (u_role u)) (own_stored_role s db)
              ||| is_admin s db)));
    Build_policy "System inserts users" INSERT
      None
      (Some (fun _ _ _ => Sql.TRUE));
    Build_policy "Admins delete users" DELETE
      (Some (fun s db _ => is_admin s db))
      None ].

(** *** classes *)

Definition classes_policies : list (policy classes_row) :=
  [ Build_policy "Users view assigned classes" SELECT
      (Some (fun s db c =>
         is_authenticated s
         &&& (is_admin s db ||| assigned s db (Some (c_id c)))))
      None;
    Build_policy "Admins manage classes" ALL
      (Some (fun s db _ => is_admin s db))
      None ].

(** *** syllabus_entries *)

Definition syllabus_entries_policies : list (policy syllabus_entries_row) :=
  [ Build_policy "Users view assigned class syllabus" SELECT
      (Some (fun s db se =>
         is_authenticated s
         &&& (is_admin s db ||| assigned s db (se_class_id se))))
      None;
    Build_policy "Volunteers manage own syllabus" ALL
      (Some (fun s db se =>
         is_authenticated s
         &&& Sql.eq3 (se_volunteer_id se) (auth_uid s)
         &&& assigned s db (se_class_id se)))
      None;
    Build_policy "Admins manage all syllabus" ALL
      (Some (fun s db _ => is_admin s db))
      None ].

(** *** announcements *)

Definition announcements_policies : list (policy announcements_row) :=
  [ Build_policy "Users read relevant announcements" SELECT
      (Some (fun s db a =>
         is_authenticated s
         &&& (Sql.is_null (an_class_id a)
              ||| is_admin s db
              ||| assigned s db (an_class_id a))))
      None;
    Build_policy "Volunteers post to assigned classes" INSERT
      None
      (Some (fun s db a =>
         is_authenticated s
         &&& Sql.eq3 (an_author_id a) (auth_uid s)
         &&& (Sql.is_null (an_class_id a) ||| assigned s db (an_class_id a))));
    Build_policy "Authors update own announcements" UPDATE
      (Some (fun s _ a => Sql.eq3 (an_author_id a) (auth_uid s)))
      None;
    Build_policy "Admins manage all announcements" ALL
      (Some (fun s db _ => is_admin s db))
      None ].

(** ** Constraints

    The CREATE TABLE statements are not among the migrations kept in the
    repository; the keys below are the ones the kept code relies on:
    [on conflict (id)] in [handle_new_user] needs the key of [users], and
    [onConflict: 'user_id,class_id'] in the dashboard needs a unique
    constraint on that pair. *)

Fixpoint pairwise_distinct {A} (same : A -> A -> bool) (l : list A) : bool :=
  match l with
  | [] => true
  | x :: l' => negb (existsb (same x) l') && pairwise_distinct same l'
  end.

(** A PRIMARY KEY on one uuid column. *)
Section Keys.

Variable row : Type.
Variable key : row -> uuid.

Definition same_key (a b : row) : bool := String.eqb (key a) (key b).

Definition key_unique (l : list row) : bool := pairwise_distinct same_key l.

End Keys.

Definition no_constraint {A} (_ : A) : result unit := Ok tt.

(** A FOREIGN KEY on a nullable column: NULL refers to nothing, any other
    value must be the key of a stored row of the table referred to. *)
Definition refers {A} (key : A -> uuid) (rows : list A) (ref : option uuid)
  : bool :=
  match ref with
  | None => true
  | Some k => existsb (fun r => String.eqb (key r) k) rows
  end.

Definition same_ref (a b : option uuid) : bool :=
  match a, b with
  | Some x, Some y => String.eqb x y
  | None, None => true
  | _, _ => false
  end.

(** The foreign keys of [syllabus_entries] and of [class_assignments], as
    the generated [Database] type lists them.  They are looked at after
    the other constraints: for a rewritten row when its referring column
    has changed, for a new row always. *)
Definition syllabus_entries_fkeys_on_update (db : database)
           (old new : syllabus_entries_row) : result unit :=
  _ <- guard (same_ref (se_class_id old) (se_class_id new)
              || refers c_id (classes db) (se_class_id new))
             (ForeignKeyViolation "syllabus_entries_class_id_fkey") ;;
  guard (same_ref (se_volunteer_id old) (se_volunteer_id new)
         || refers u_id (users db) (se_volunteer_id new))
        (ForeignKeyViolation "syllabus_entries_volunteer_id_fkey").

Definition class_assignments_fkeys (db : database)
           (ca : class_assignments_row) : result unit :=
  _ <- guard (refers c_id (classes db) (ca_class_id ca))
             (ForeignKeyViolation "class_assignments_class_id_fkey") ;;
  guard (refers u_id (users db) (ca_user_id ca))
        (ForeignKeyViolation "class_assignments_user_id_fkey").

(** [CHECK (role IN ('admin', 'volunteer', 'viewer'))] *)
Definition valid_user_roles (u : users_row) : bool :=
  existsb (String.eqb (u_role u)) ["admin"; "volunteer"; "viewer"].

Definition users_row_ok (u : users_row) : result unit :=
  guard (valid_user_roles u) (CheckViolation "valid_user_roles").

Definition users_pkey (rows : list users_row) : bool :=
  key_unique u_id rows.

Definition users_table_ok (rows : list users_row) : result unit :=
  guard (users_pkey rows) (UniqueViolation "users_pkey").

Definition classes_pkey (rows : list classes_row) : bool :=
  key_unique c_id rows.

Definition classes_table_ok (rows : list classes_row) : result unit :=
  guard (classes_pkey rows) (UniqueViolation "classes_pkey").

Definition syllabus_entries_pkey (rows : list syllabus_entries_row) : bool :=
  key_unique se_id rows.

Definition syllabus_entries_table_ok (rows : list syllabus_entries_row)
  : result unit :=
  guard (syllabus_entries_pkey rows) (UniqueViolation "syllabus_entries_pkey").

Definition class_assignments_pkey (rows : list class_assignments_row) : bool :=
  key_unique ca_id rows.

(** Two assignments collide on (user_id, class_id) when both columns are
    equal; a NULL column never collides. *)
Definition same_assignment (a b : class_assignments_row) : bool :=
  Sql.is_true (Sql.eq3 (ca_user_id a) (ca_user_id b)
               &&& Sql.eq3 (ca_class_id a) (ca_class_id b)).

(** Modelled from the spec: the unique constraint of [class_assignments]
    on the (user, class) pair ("Unique per (user, class) pair"); its
    CREATE TABLE is missing from the sources. *)
Definition class_assignments_user_class_key
           (rows : list class_assignments_row) : bool :=
  pairwise_distinct same_assignment rows.

Definition class_assignments_table_ok (rows : list class_assignments_row)
  : result unit :=
  _ <- guard (class_assignments_pkey rows)
             (UniqueViolation "class_assignments_pkey") ;;
  guard (class_assignments_user_class_key rows)
        (UniqueViolation "class_assignments_user_id_class_id_key").

(** The constraints as an invariant of the stored data. *)
Record consistent (db : database) : Prop := {
  cons_users_pkey : users_pkey (users db) = true;
  cons_users_roles : forallb valid_user_roles (users db) = true;
  cons_classes_pkey : classes_pkey (classes db) = true;
  cons_assignments_pkey :
    class_assignments_pkey (class_assignments db) = true;
  cons_assignments_key :
    class_assignments_user_class_key (class_assignments db) = true;
  cons_syllabus_pkey : syllabus_entries_pkey (syllabus_entries db) = true
}.

(** ** Statements on the tables *)

Definition with_users (db : database) (rows : list users_row) : database :=
  {| users := rows; classes := classes db;
     class_assignments := class_assignments db;
     syllabus_entries := syllabus_entries db;
     announcements := announcements db |}.

Definition with_classes (db : database) (rows : list classes_row) : database :=
  {| users := users db; classes := rows;
     class_assignments := class_assignments db;
     syllabus_entries := syllabus_entries db;
     announcements := announcements db |}.

Definition with_class_assignments (db : database)
           (rows : list class_assignments_row) : database :=
  {| users := users db; classes := classes db;
     class_assignments := rows;
     syllabus_entries := syllabus_entries db;
     announcements := announcements db |}.

Definition with_syllabus_entries (db : database)
           (rows : list syllabus_entries_row) : database :=
  {| users := users db; classes := classes db;
     class_assignments := class_assignments db;
     syllabus_entries := rows;
     announcements := announcements db |}.

Definition insert_users (reads : bool) (s : session) (new : users_row)
           (db : database) : result database :=
  rows <- insert "users" users_policies users_row_ok users_table_ok
                 reads s db new (users db) ;;
  Ok (with_users db rows).

Definition update_users (reads : bool) (s : session)
           (where_ : users_row -> bool) (set : users_row -> users_row)
           (db : database) : result database :=
  rows <- update "users" users_policies users_row_ok users_table_ok
                 reads s db where_ set (users db) ;;
  Ok (with_users db rows).

Definition insert_classes (reads : bool) (s : session) (new : classes_row)
           (db : database) : result database :=
  rows <- insert "classes" classes_policies no_constraint classes_table_ok
                 reads s db new (classes db) ;;
  Ok (with_classes db rows).

Definition insert_syllabus_entries (reads : bool) (s : session)
           (new : syllabus_entries_row) (db : database) : result database :=
  rows <- insert "syllabus_entries" syllabus_entries_policies
                 no_constraint syllabus_entries_table_ok
                 reads s db new (syllabus_entries db) ;;
  Ok (with_syllabus_entries db rows).

Definition update_syllabus_entries (reads : bool) (s : session)
           (where_ : syllabus_entries_row -> bool)
           (set : syllabus_entries_row -> syllabus_entries_row)
           (db : database) : result database :=
  rows <- update "syllabus_entries" syllabus_entries_policies
                 no_constraint syllabus_entries_table_ok
                 reads s db where_ set (syllabus_entries db) ;;
  _ <- rows_ok (fun old => syllabus_entries_fkeys_on_update db old (set old))
               (filter (update_target syllabus_entries_policies reads s db
                                      where_)
                       (syllabus_entries db)) ;;
  Ok (with_syllabus_entries db rows).

(** [.upsert({user_id, class_id}, {onConflict: 'user_id,class_id'})]: on a
    collision the stored row takes the submitted columns and keeps its id. *)
Definition merge_assignment (old new : class_assignments_row)
  : class_assignments_row :=
  {| ca_id := ca_id old;
     ca_user_id := ca_user_id new;
     ca_class_id := ca_class_id new |}.

Definition upsert_class_assignments (s : session)
           (new : class_assignments_row) (db : database) : result database :=
  rows <- upsert "class_assignments" class_assignments_policies
                 no_constraint class_assignments_table_ok
                 same_assignment merge_assignment
                 s db new (class_assignments db) ;;
  _ <- match find (same_assignment new) (class_assignments db) with
       | Some _ => Ok tt          (* rewritten with the same user and class *)
       | None => class_assignments_fkeys db new
       end ;;
  Ok (with_class_assignments db rows).

(** ** Functions and triggers (SECURITY DEFINER: no policy applies inside) *)

(** The row of the identity provider's table that fires the triggers. *)
Record auth_users_row := {
  au_id : uuid;
  au_email : text;
  au_raw_user_meta_data : list (string * text)
}.

(** [object ->> key] *)
Fixpoint json_text (o : list (string * text)) (k : string) : option text :=
  match o with
  | [] => None
  | (k', v) :: o' => if String.eqb k' k then Some v else json_text o' k
  end.

(** The trigger on identity creation, as [20250918093108] leaves it.
    [created_at] is the value the column default gives the new row. *)
Definition handle_new_user (created_at : option text) (new : auth_users_row)
           (db : database) : result database :=
  let row :=
    {| u_id := au_id new;
       u_email := au_email new;
       u_name := json_text (au_raw_user_meta_data new) "name";
       u_photo_url := None;
       u_programme := None;
       u_role := if String.eqb (au_email new) "sunny@example.com"
                 then "admin" else "viewer";
       u_created_at := created_at |} in
  _ <- users_row_ok row ;;
  if existsb (fun u => String.eqb (u_id u) (u_id row)) (users db)
  then Ok db                                   (* on conflict (id) do nothing *)
  else Ok (with_users db (users db ++ [row])%list).

Module Superseded.

(** The earlier definition of the same trigger, replaced by the one
    above: every new identity is a viewer. *)
Definition handle_new_user (created_at : option text) (new : auth_users_row)
           (db : database) : result database :=
  let row :=
    {| u_id := au_id new;
       u_email := au_email new;
       u_name := json_text (au_raw_user_meta_data new) "name";
       u_photo_url := None;
       u_programme := None;
       u_role := "viewer";
       u_created_at := created_at |} in
  _ <- users_row_ok row ;;
  if existsb (fun u => String.eqb (u_id u) (u_id row)) (users db)
  then Ok db
  else Ok (with_users db (users db ++ [row])%list).

End Superseded.

(** The trigger on identity deletion. *)
Definition handle_deleted_user (old : auth_users_row) (db : database)
  : database :=
  with_users db (filter (fun u => negb (String.eqb (u_id u) (au_id old)))
                        (users db)).

Definition set_role (r : text) (u : users_row) : users_row :=
  {| u_id := u_id u; u_email := u_email u; u_name := u_name u;
     u_photo_url := u_photo_url u; u_programme := u_programme u;
     u_role := r; u_created_at := u_created_at u |}.

(** [NOT a] *)
Definition not3 (a : Sql.tv) : Sql.tv :=
  match a with
  | Some b => Some (negb b)
  | None => None
  end.

(** [promote_user(target_user, new_role)], called by [s] through the API.
    The body never looks at the caller.  The function is not STRICT, so
    [new_role] may be NULL: the IF then sees NULL, which is not true, and
    the UPDATE runs with a NULL role, which the NOT NULL column refuses
    for every row it reaches. *)
Definition promote_user (s : session) (target_user : uuid)
           (new_role : option text) (db : database) : result database :=
  if Sql.is_true (not3 (Sql.in3 new_role ["admin"; "volunteer"; "viewer"]))
  then Err (RaisedException
              ("Invalid role: "
               ++ match new_role with Some r => r | None => "<NULL>" end))
  else
    let hit u := String.eqb (u_id u) target_user in
    match new_role with
    | Some r =>
        _ <- rows_ok users_row_ok (map (set_role r) (filter hit (users db))) ;;
        Ok (with_users db
              (map (fun u => if hit u then set_role r u else u) (users db)))
    | None =>
        _ <- guard (negb (existsb hit (users db))) (NotNullViolation "role") ;;
        Ok db
    end.

(** ** Views

    As [20250926075646] creates them, replacing the earlier definitions. *)

(** What [s] reads from each table. *)
Definition as_seen_by (s : session) (db : database) : database :=
  {| users := visible users_policies s db (users db);
     classes := visible classes_policies s db (classes db);
     class_assignments :=
       visible class_assignments_policies s db (class_assignments db);
     syllabus_entries :=
       visible syllabus_entries_policies s db (syllabus_entries db);
     announcements :=
       visible announcements_policies s db (announcements db) |}.

(** A view is its query and its [security_invoker] option: with the option
    the query reads the tables as the caller does, without it as the
    view's owner, to whom no policy applies. *)
Record view (A : Type) := {
  security_invoker : bool;
  view_query : database -> list A
}.

Definition select_from {A} (v : view A) (s : session) (db : database)
  : list A :=
  view_query v (if security_invoker v then as_seen_by s db else db).

Record pending_volunteers_row := {
  pv_id : uuid;
  pv_name : option text;
  pv_email : text;
  pv_programme : option text;
  pv_created_at : option text
}.

Definition pending_of (u : users_row) : pending_volunteers_row :=
  {| pv_id := u_id u; pv_name := u_name u; pv_email := u_email u;
     pv_programme := u_programme u; pv_created_at := u_created_at u |}.

Definition pending_volunteers : view pending_volunteers_row :=
  {| security_invoker := true;
     view_query := fun db =>
       map pending_of
           (filter (fun u => Sql.is_true (Sql.eq3 (Some (u_role u))
                                                  (Some "viewer")))
                   (users db)) |}.

Record volunteer_dashboard_row := {
  vd_syllabus_entry_id : uuid;
  vd_class_id : option uuid;
  vd_volunteer_id : option uuid;
  vd_date_taught : text;
  vd_duration_min : option Z;
  vd_topics : option (list text);
  vd_test_given : option bool;
  vd_test_info : option text;
  vd_notes : option text;
  vd_attachments : option (list text);
  vd_entry_created_at : option text;
  vd_entry_updated_at : option text;
  vd_volunteer_name : option text;
  vd_volunteer_email : text;
  vd_programme : option text;
  vd_photo_url : option text;
  vd_subject : text;
  vd_grade : text;
  vd_class_label : option text;
  vd_description : option text
}.

Definition dashboard_of (se : syllabus_entries_row) (u : users_row)
           (c : classes_row) : volunteer_dashboard_row :=
  {| vd_syllabus_entry_id := se_id se;
     vd_class_id := se_class_id se;
     vd_volunteer_id := se_volunteer_id se;
     vd_date_taught := se_date_taught se;
     vd_duration_min := se_duration_min se;
     vd_topics := se_topics se;
     vd_test_given := se_test_given se;
     vd_test_info := se_test_info se;
     vd_notes := se_notes se;
     vd_attachments := se_attachments se;
     vd_entry_created_at := se_created_at se;
     vd_entry_updated_at := se_updated_at se;
     vd_volunteer_name := u_name u;
     vd_volunteer_email := u_email u;
     vd_programme := u_programme u;
     vd_photo_url := u_photo_url u;
     vd_subject := c_subject c;
     vd_grade := c_grade c;
     vd_class_label := c_class_label c;
     vd_description := c_description c |}.

(** [syllabus_entries se JOIN users u ON se.volunteer_id = u.id
     JOIN classes c ON se.class_id = c.id
     WHERE u.role IN ('volunteer', 'admin')] *)
Definition volunteer_dashboard : view volunteer_dashboard_row :=
  {| security_invoker := true;
     view_query := fun db =>
       flat_map (fun se =>
         flat_map (fun u =>
           if Sql.is_true (Sql.eq3 (se_volunteer_id se) (Some (u_id u)))
           then
             flat_map (fun c =>
               if Sql.is_true (Sql.eq3 (se_class_id se) (Some (c_id c)))
                  && Sql.is_true (Sql.in3 (Some (u_role u))
                                          ["volunteer"; "admin"])
               then [dashboard_of se u c] else [])
               (classes db)
           else [])
           (users db))
         (syllabus_entries db) |}.

(** ** The admin dashboard's class assignment *)

(** [classAssignments[userId]]: the grade and subject picked in the form. *)
Record assignment_form := {
  grade : string;
  subject : string
}.

(** [.maybeSingle()]: no row, the row, or an error on several rows. *)
Definition maybeSingle {A} (rows : list A) : result (option A) :=
  match rows with
  | [] => Ok None
  | [r] => Ok (Some r)
  | _ :: _ :: _ => Err MultipleRows
  end.

Definition form_matches (a : assignment_form) (c : classes_row) : bool :=
  String.eqb (c_grade c) (grade a) && String.eqb (c_subject c) (subject a).

Definition find_class (s : session) (a : assignment_form) (db : database)
  : result (option classes_row) :=
  maybeSingle
    (filter (form_matches a) (visible classes_policies s db (classes db))).

(** Each request to the database commits on its own, so the handler
    returns the database it leaves together with the error it reports, if
    any.  [class_uuid], [assignment_uuid] and [created_at] are the column
    defaults the database would give a row inserted by this run. *)
Definition handleClassAssignment (s : session)
           (class_uuid assignment_uuid : uuid) (created_at : option text)
           (userId : uuid) (assignment : option assignment_form)
           (db : database) : database * option error :=
  match assignment with
  | None => (db, Some MissingInput)
  | Some a =>
      if String.eqb (grade a) EmptyString || String.eqb (subject a) EmptyString
      then (db, Some MissingInput)
      else
        let classLabel := grade a ++ "-" ++ subject a in
        match find_class s a db with
        | Err findError => (db, Some findError)
        | Ok existingClass =>
            let created :=
              match existingClass with
              | Some c => Ok (c_id c, db)
              | None =>
                  db' <- insert_classes true s
                           {| c_id := class_uuid;
                              c_subject := subject a;
                              c_grade := grade a;
                              c_class_label := Some classLabel;
                              c_description := None;
                              c_created_at := created_at |} db ;;
                  Ok (class_uuid, db')
              end in
            match created with
            | Err createError => (db, Some createError)
            | Ok (classId, db1) =>
                match upsert_class_assignments s
                        {| ca_id := assignment_uuid;
                           ca_user_id := Some userId;
                           ca_class_id := Some classId |} db1 with
                | Err assignError => (db1, Some assignError)
                | Ok db2 => (db2, None)
                end
            end
        end
  end.

(** ** Further statements on the tables *)

Definition with_announcements (db : database) (rows : list announcements_row)
  : database :=
  {| users := users db; classes := classes db;
     class_assignments := class_assignments db;
     syllabus_entries := syllabus_entries db;
     announcements := rows |}.

Definition announcements_pkey (rows : list announcements_row) : bool :=
  key_unique an_id rows.

Definition announcements_table_ok (rows : list announcements_row)
  : result unit :=
  guard (announcements_pkey rows) (UniqueViolation "announcements_pkey").

(** The foreign keys of a rewritten announcement are left out: they can
    only turn a success of the statement below into an error. *)
Definition update_announcements (reads : bool) (s : session)
           (where_ : announcements_row -> bool)
           (set : announcements_row -> announcements_row)
           (db : database) : result database :=
  rows <- update "announcements" announcements_policies
                 no_constraint announcements_table_ok
                 reads s db where_ set (announcements db) ;;
  Ok (with_announcements db rows).

(** No table refers to [syllabus_entries] or to [class_assignments], so
    a DELETE on them raises nothing. *)
Definition delete_syllabus_entries (reads : bool) (s : session)
           (where_ : syllabus_entries_row -> bool) (db : database)
  : database :=
  with_syllabus_entries db
    (delete syllabus_entries_policies reads s db where_
            (syllabus_entries db)).

Definition delete_class_assignments (reads : bool) (s : session)
           (where_ : class_assignments_row -> bool) (db : database)
  : database :=
  with_class_assignments db
    (delete class_assignments_policies reads s db where_
            (class_assignments db)).

(** ** The dashboards' other handlers *)

(** What a handler tells the user: nothing, the success toast, or the
    error toast. *)
Inductive report :=
| Silent
| Success
| Failure (e : error).

(** The dashboards' copy of a user: the [users] row and the classes
    assigned to it. *)
Record AssignedClass := {
  ac_class_id : option uuid;
  ac_subject : text;
  ac_grade : text;
  ac_class_label : option text
}.

Record UserWithClasses := {
  uwc_user : users_row;
  assignedClasses : list AssignedClass
}.

(** [handleRoleUpdate]: [.update({ role: newRole }).eq('id', userId)],
    then the same change on the copy the page shows. *)
Definition handleRoleUpdate (s : session) (userId : uuid) (newRole : text)
           (db : database) (shown : list UserWithClasses)
  : database * list UserWithClasses * report :=
  match update_users true s (fun u => String.eqb (u_id u) userId)
                     (set_role newRole) db with
  | Err error => (db, shown, Failure error)
  | Ok db' =>
      (db',
       map (fun user =>
              if String.eqb (u_id (uwc_user user)) userId
              then {| uwc_user := set_role newRole (uwc_user user);
                      assignedClasses := assignedClasses user |}
              else user)
           shown,
       Success)
  end.

(** [.eq('user_id', userId).eq('class_id', classId)] *)
Definition names_pair (userId classId : uuid) (ca : class_assignments_row)
  : bool :=
  Sql.is_true (Sql.eq3 (ca_user_id ca) (Some userId))
  && Sql.is_true (Sql.eq3 (ca_class_id ca) (Some classId)).

(** [handleRemoveAssignment]:
    [.delete().eq('user_id', userId).eq('class_id', classId)], then the
    class is dropped from the copy the page shows. *)
Definition handleRemoveAssignment (s : session) (userId classId : uuid)
           (db : database) (volunteers : list UserWithClasses)
  : database * list UserWithClasses * report :=
  (delete_class_assignments true s (names_pair userId classId) db,
   map (fun vol =>
          if String.eqb (u_id (uwc_user vol)) userId
          then {| uwc_user := uwc_user vol;
                  assignedClasses :=
                    filter (fun c => negb (Sql.is_true
                                             (Sql.eq3 (ac_class_id c)
                                                      (Some classId))))
                           (assignedClasses vol) |}
          else vol)
       volunteers,
   Success).

Definition set_profile (name : option text) (programme : option text)
           (u : users_row) : users_row :=
  {| u_id := u_id u; u_email := u_email u; u_name := name;
     u_photo_url := u_photo_url u; u_programme := programme;
     u_role := u_role u; u_created_at := u_created_at u |}.

(** [x || null] on a form field: the empty string counts as absent. *)
Definition or_null (x : option text) : option text :=
  match x with
  | Some EmptyString => None
  | _ => x
  end.

(** [handleSaveProfile]: [user] is the signed-in identity, [profile] the
    copy of its row the page holds, [name] and [programme] the two form
    fields. *)
Definition handleSaveProfile (user : option uuid) (profile : option users_row)
           (name programme : option text) (db : database)
  : database * option users_row * report :=
  match profile, user with
  | Some shown, Some id =>
      match update_users true (authenticated id)
                         (fun u => String.eqb (u_id u) id)
                         (set_profile name (or_null programme)) db with
      | Err error => (db, profile, Failure error)
      | Ok db' =>
          (db', Some (set_profile name (or_null programme) shown), Success)
      end
  | _, _ => (db, profile, Silent)
  end.

(** ** The volunteer carousel *)

(** [a <> b] on nullable text. *)
Definition neq3 (a b : option text) : Sql.tv :=
  match Sql.eq3 a b with
  | Some c => Some (negb c)
  | None => None
  end.

Record Volunteer := {
  v_id : uuid;
  v_name : option text;
  v_photo_url : option text;
  v_programme : option text
}.

Definition volunteer_of (u : users_row) : Volunteer :=
  {| v_id := u_id u; v_name := u_name u;
     v_photo_url := u_photo_url u; v_programme := u_programme u |}.

(** [.from('users').select('id, name, photo_url, programme')
     .neq('role', 'admin').neq('role', 'viewer').limit(20)] *)
Definition fetchVolunteers (s : session) (db : database) : list Volunteer :=
  firstn 20
    (map volunteer_of
       (filter (fun u => Sql.is_true (neq3 (Some (u_role u)) (Some "admin"))
                         && Sql.is_true (neq3 (Some (u_role u))
                                              (Some "viewer")))
               (visible users_policies s db (users db)))).

(** What the carousel renders once the fetch has answered: nothing when
    there is no volunteer, the list twice over otherwise. *)
Definition VolunteerCarousel (s : session) (db : database)
  : option (list Volunteer) :=
  let volunteers := fetchVolunteers s db in
  if Nat.eqb (List.length volunteers) 0 then None
  else Some (volunteers ++ volunteers)%list.

(** ** Subjects offered for a grade *)

Definition is_digit (c : Ascii.ascii) : bool :=
  Nat.leb 48 (Ascii.nat_of_ascii c) && Nat.leb (Ascii.nat_of_ascii c) 57.

(** [grade.replace(/\D/g, '')]: the digits of the text, in order. *)
Fixpoint digits_of (t : string) : string :=
  match t with
  | EmptyString => EmptyString
  | String c t' =>
      if is_digit c then String c (digits_of t') else digits_of t'
  end.

Fixpoint read_digits (acc : N) (t : string) : N :=
  match t with
  | EmptyString => acc
  | String c t' =>
      read_digits (10 * acc + N.of_nat (Ascii.nat_of_ascii c - 48))%N t'
  end.

(** [parseInt] on a text made of digits: its decimal value, NaN ([None])
    on the empty text.  The value is only compared with 6, 9, 10 and 12,
    which the rounding of large numbers does not affect. *)
Definition parseInt (t : string) : option N :=
  match t with
  | EmptyString => None
  | _ => Some (read_digits 0%N t)
  end.

Definition getSubjectOptions (grade : string) : list string :=
  match parseInt (digits_of grade) with
  | None => []
  | Some gradeNum =>
      if N.leb 6 gradeNum && N.leb gradeNum 9
      then ["Mathematics"; "Science"; "English"; "Social Science"; "Hindi";
            "Extra Curricular"]
      else if N.leb 10 gradeNum && N.leb gradeNum 12
      then ["Physics"; "Chemistry"; "Biology"; "English"; "Maths";
            "Extra Curricular"]
      else []
  end.

(** ** Progress per class on the syllabus page *)

(** An entry as the page holds it. *)
Record SyllabusEntry := {
  e_class_id : option uuid;
  e_date_taught : text;
  e_topics : option (list text);
  e_is_planned : bool;
  e_approved : bool;
  e_grade : text;
  e_subject : text;
  e_class_label : text
}.

Record ClassProgress := {
  cp_class_id : option uuid;
  cp_grade : text;
  cp_subject : text;
  cp_class_label : text;
  completedTopics : nat;
  totalSessions : nat;
  plannedSessions : nat;
  pendingApproval : nat;
  approvedSessions : nat;
  lastSession : option text
}.

Definition same_class (a b : option uuid) : bool :=
  match a, b with
  | Some x, Some y => String.eqb x y
  | None, None => true
  | _, _ => false
  end.

Section Progress.

(** [a > b] on texts, as the page's language compares them. *)
Variable later : text -> text -> bool.

Definition fresh_progress (entry : SyllabusEntry) : ClassProgress :=
  {| cp_class_id := e_class_id entry;
     cp_grade := e_grade entry;
     cp_subject := e_subject entry;
     cp_class_label := e_class_label entry;
     completedTopics := 0; totalSessions := 0; plannedSessions := 0;
     pendingApproval := 0; approvedSessions := 0;
     lastSession := None |}.

(** The body of the loop on the progress of the entry's class. *)
Definition record_entry (entry : SyllabusEntry) (progress : ClassProgress)
  : ClassProgress :=
  if e_is_planned entry then
    {| cp_class_id := cp_class_id progress; cp_grade := cp_grade progress;
       cp_subject := cp_subject progress;
       cp_class_label := cp_class_label progress;
       completedTopics := completedTopics progress;
       totalSessions := totalSessions progress;
       plannedSessions := S (plannedSessions progress);
       pendingApproval := pendingApproval progress;
       approvedSessions := approvedSessions progress;
       lastSession := lastSession progress |}
  else
    {| cp_class_id := cp_class_id progress; cp_grade := cp_grade progress;
       cp_subject := cp_subject progress;
       cp_class_label := cp_class_label progress;
       completedTopics :=
         completedTopics progress
         + match e_topics entry with
           | Some topics => List.length topics
           | None => 0
           end;
       totalSessions := S (totalSessions progress);
       plannedSessions := plannedSessions progress;
       pendingApproval :=
         if e_approved entry then pendingApproval progress
         else S (pendingApproval progress);
       approvedSessions :=
         if e_approved entry then S (approvedSessions progress)
         else approvedSessions progress;
       lastSession :=
         match lastSession progress with
         | None | Some EmptyString => Some (e_date_taught entry)
         | Some last =>
             if later (e_date_taught entry) last
             then Some (e_date_taught entry) else Some last
         end |}.

(** One turn of [formattedEntries.forEach]: the map gets a fresh progress
    for a class it does not hold yet, then the progress of the entry's
    class is updated in place.  The map keeps its keys in insertion order. *)
Definition progress_step (progressMap : list ClassProgress)
           (entry : SyllabusEntry) : list ClassProgress :=
  let held :=
    existsb (fun p => same_class (cp_class_id p) (e_class_id entry))
            progressMap in
  let progressMap' :=
    if held then progressMap
    else (progressMap ++ [fresh_progress entry])%list in
  map (fun p => if same_class (cp_class_id p) (e_class_id entry)
                then record_entry entry p else p)
      progressMap'.

(** [Array.from(progressMap.values())] after the loop. *)
Definition classProgress (entries : list SyllabusEntry) : list ClassProgress :=
  fold_left progress_step entries [].

End Progress.

(** Planned and held sessions of a class. *)
Definition sessions (p : ClassProgress) : nat :=
  plannedSessions p + totalSessions p.

(** What the loop keeps true after each entry. *)
Record progress_ok (m : list ClassProgress) (n : nat) : Prop := {
  ok_classes : NoDup (map cp_class_id m);
  ok_balance : forall p, In p m ->
      totalSessions p = approvedSessions p + pendingApproval p;
  ok_sessions : list_sum (map sessions m) = n
}.

(** ** Test data *)

Module Sample.

Definition user (id email role : text) : users_row :=
  {| u_id := id; u_email := email; u_name := Some id;
     u_photo_url := None; u_programme := None;
     u_role := role; u_created_at := None |}.

Definition class (id g sub : text) : classes_row :=
  {| c_id := id; c_subject := sub; c_grade := g;
     c_class_label := Some (g ++ "-" ++ sub);
     c_description := None; c_created_at := None |}.

Definition assignment (id u k : text) : class_assignments_row :=
  {| ca_id := id; ca_user_id := Some u; ca_class_id := Some k |}.

Definition entry (id k v : text) (approved : bool) : syllabus_entries_row :=
  {| se_id := id; se_class_id := Some k; se_volunteer_id := Some v;
     se_date_taught := "2025-09-20"; se_duration_min := Some 45%Z;
     se_topics := Some ["fractions"]; se_test_given := Some false;
     se_test_info := None; se_notes := None; se_attachments := None;
     se_approved := Some approved;
     se_created_at := None; se_updated_at := None |}.

Definition notice (id author : text) (k : option text) : announcements_row :=
  {| an_id := id; an_author_id := Some author; an_class_id := k;
     an_message := "hello"; an_pinned := None; an_expiry_date := None;
     an_created_at := None |}.

(** An admin, two volunteers (the second without the class), a viewer. *)
Definition db : database :=
  {| users := [ user "A" "a@x.org" "admin";
                user "V" "v@x.org" "volunteer";
                user "W" "w@x.org" "volunteer";
                user "P" "p@x.org" "viewer" ];
     classes := [ class "K" "Grade 7" "Science";
                  class "L" "Grade 8" "Hindi" ];
     class_assignments := [ assignment "a1" "V" "K";
                            assignment "a2" "W" "L" ];
     syllabus_entries := [ entry "E" "K" "V" false;
                           entry "F" "L" "W" true ];
     announcements := [ notice "n1" "V" (Some "K");
                        notice "n2" "A" None ] |}.

Definition identity (id email : text) : auth_users_row :=
  {| au_id := id; au_email := email;
     au_raw_user_meta_data := [("name", id)] |}.

End Sample.

(** ** Vocabulary of the properties *)

Definition non_admin (s : session) (db : database) : Prop :=
  get_current_user_role s db <> Some "admin".

(** A ClassAssignment(u, k) row exists. *)
Definition has_assignment (u k : uuid) (db : database) : Prop :=
  exists ca, In ca (class_assignments db)
             /\ ca_user_id ca = Some u /\ ca_class_id ca = Some k.

Definition roles : list text := ["admin"; "volunteer"; "viewer"].

Definition promoted (target : uuid) (r : text) (us : list users_row)
  : list users_row :=
  map (fun u => if String.eqb (u_id u) target then set_role r u else u) us.

Definition known (id : uuid) (db : database) : bool :=
  existsb (fun u => String.eqb (u_id u) id) (users db).

(** The role the trigger gives a new identity. *)
Definition initial_role (email : text) : text :=
  if String.eqb email "sunny@example.com" then "admin" else "viewer".

(** The entry names [v] as its volunteer and belongs to a class [v] is
    assigned to. *)
Definition own_and_assigned (v : uuid) (db : database)
           (se : syllabus_entries_row) : Prop :=
  se_volunteer_id se = Some v
  /\ exists k, se_class_id se = Some k /\ has_assignment v k db.

(** [.update({ approved: b })] *)
Definition set_approved (b : option bool) (se : syllabus_entries_row)
  : syllabus_entries_row :=
  {| se_id := se_id se; se_class_id := se_class_id se;
     se_volunteer_id := se_volunteer_id se;
     se_date_taught := se_date_taught se;
     se_duration_min := se_duration_min se; se_topics := se_topics se;
     se_test_given := se_test_given se; se_test_info := se_test_info se;
     se_notes := se_notes se; se_attachments := se_attachments se;
     se_approved := b;
     se_created_at := se_created_at se; se_updated_at := se_updated_at se |}.

(** The caller may write the entry: as its assigned volunteer, or as an
    admin. *)
Definition may_write_entry (u : uuid) (db : database)
           (se : syllabus_entries_row) : Prop :=
  own_and_assigned u db se
  \/ get_current_user_role (authenticated u) db = Some "admin".

(** The rows of [class_assignments] that relate user [u] to class [k]. *)
Definition assignments_of (u k : uuid) (db : database)
  : list class_assignments_row :=
  filter (fun ca => Sql.is_true (Sql.eq3 (ca_user_id ca) (Some u)
                                 &&& Sql.eq3 (ca_class_id ca) (Some k)))
         (class_assignments db).

(** * Properties *)

Unset Implicit Arguments.

(** ** Three-valued logic under [is_true] *)

Lemma is_true_and3 (a b : Sql.tv) :
  Sql.is_true (a &&& b) = Sql.is_true a && Sql.is_true b.
Proof. destruct a as [[|]|], b as [[|]|]; reflexivity. Qed.

Lemma is_true_or3 (a b : Sql.tv) :
  Sql.is_true (a ||| b) = Sql.is_true a || Sql.is_true b.
Proof. destruct a as [[|]|], b as [[|]|]; reflexivity. Qed.

Lemma is_true_eq3 (a b : option text) :
  Sql.is_true (Sql.eq3 a b) = true <-> exists x, a = Some x /\ b = Some x.
Proof.
  destruct a as [x|], b as [y|]; simpl; split;
    try discriminate; try (intros (z & H1 & H2); discriminate).
  - destruct (String.eqb_spec x y); [subst; eauto | discriminate].
  - intros (z & H1 & H2). inversion H1; inversion H2; subst.
    now rewrite String.eqb_refl.
Qed.

Lemma is_true_eq3_Some (x y : text) :
  Sql.is_true (Sql.eq3 (Some x) (Some y)) = String.eqb x y.
Proof. simpl. destruct (String.eqb x y); reflexivity. Qed.

Lemma is_true_exists3 {A} (rows : list A) :
  Sql.is_true (Sql.exists3 rows) = true <-> exists r, In r rows.
Proof.
  destruct rows as [|r rows]; simpl; split; intros H.
  - discriminate.
  - destruct H as [r []].
  - exists r. now left.
  - reflexivity.
Qed.

Lemma is_true_authenticated (u : uuid) :
  Sql.is_true (is_authenticated (authenticated u)) = true.
Proof. reflexivity. Qed.

(** Unfolds the evaluation of a concrete policy list on a row. *)
Ltac eval_policies :=
  cbv [passes_using passes_check existsb applies_to using_expr
       with_check_expr pol_for pol_using pol_with_check command_eqb
       class_assignments_policies users_policies users_select_policy
       classes_policies syllabus_entries_policies announcements_policies];
  cbn [orb andb]; rewrite ?orb_false_r.

Ltac eval_policies_in H :=
  cbv [passes_using passes_check existsb applies_to using_expr
       with_check_expr pol_for pol_using pol_with_check command_eqb
       class_assignments_policies users_policies users_select_policy
       classes_policies syllabus_entries_policies announcements_policies]
    in H;
  cbn [orb andb] in H; rewrite ?orb_false_r in H.

(** ** The caller's role *)

Lemma is_admin_true (s : session) (db : database) :
  Sql.is_true (is_admin s db) = true <->
  get_current_user_role s db = Some "admin".
Proof.
  unfold is_admin. rewrite is_true_eq3. split.
  - intros (x & H1 & H2). congruence.
  - intros H. exists "admin". auto.
Qed.

Lemma non_admin_false (s : session) (db : database) :
  non_admin s db -> Sql.is_true (is_admin s db) = false.
Proof.
  intros H. destruct (Sql.is_true (is_admin s db)) eqn:E; [|reflexivity].
  apply is_admin_true in E. contradiction.
Qed.

(** ** Assignments *)

Lemma assigned_iff (u k : uuid) (db : database) :
  Sql.is_true (assigned (authenticated u) db (Some k)) = true <->
  has_assignment u k db.
Proof.
  unfold assigned, has_assignment. rewrite is_true_exists3. split.
  - intros (ca & Hin). apply filter_In in Hin as [Hvis Hca].
    apply filter_In in Hvis as [Hin _].
    rewrite is_true_and3 in Hca. apply andb_prop in Hca as [Hk Hu].
    apply is_true_eq3 in Hk as (x & Hk & Hx).
    apply is_true_eq3 in Hu as (y & Hu & Hy).
    simpl in Hy. exists ca. repeat split; congruence.
  - intros (ca & Hin & Hu & Hk). exists ca.
    apply filter_In. split.
    + apply filter_In. split; [assumption|].
      eval_policies.
      rewrite is_true_or3, Hu. simpl. rewrite String.eqb_refl. reflexivity.
    + rewrite is_true_and3, Hu, Hk. simpl.
      rewrite !String.eqb_refl. reflexivity.
Qed.

Lemma assigned_null (s : session) (db : database) :
  Sql.is_true (assigned s db None) = false.
Proof.
  unfold assigned.
  destruct (Sql.is_true (Sql.exists3 _)) eqn:E; [|reflexivity].
  apply is_true_exists3 in E as (ca & Hin).
  apply filter_In in Hin as [_ Hca].
  rewrite is_true_and3 in Hca. apply andb_prop in Hca as [Hk _].
  apply is_true_eq3 in Hk as (x & _ & Hx). discriminate.
Qed.

(** ** SELECT on classes, syllabus entries and announcements *)

Lemma classes_select (u : uuid) (db : database) (c : classes_row) :
  passes_using SELECT classes_policies (authenticated u) db c =
  Sql.is_true (is_admin (authenticated u) db)
  || Sql.is_true (assigned (authenticated u) db (Some (c_id c))).
Proof.
  eval_policies. rewrite is_true_and3, is_true_or3. simpl.
  destruct (Sql.is_true (is_admin _ _)), (Sql.is_true (assigned _ _ _));
    reflexivity.
Qed.

Lemma syllabus_entries_select (u : uuid) (db : database)
      (se : syllabus_entries_row) :
  passes_using SELECT syllabus_entries_policies (authenticated u) db se =
  Sql.is_true (is_admin (authenticated u) db)
  || Sql.is_true (assigned (authenticated u) db (se_class_id se)).
Proof.
  eval_policies. rewrite !is_true_and3, is_true_or3. simpl.
  destruct (Sql.is_true (is_admin _ _)), (Sql.is_true (assigned _ _ _)),
    (Sql.is_true (Sql.eq3 _ _)); reflexivity.
Qed.

Lemma announcements_select (u : uuid) (db : database)
      (a : announcements_row) :
  passes_using SELECT announcements_policies (authenticated u) db a =
  Sql.is_true (Sql.is_null (an_class_id a))
  || Sql.is_true (is_admin (authenticated u) db)
  || Sql.is_true (assigned (authenticated u) db (an_class_id a)).
Proof.
  eval_policies. rewrite is_true_and3, !is_true_or3. simpl.
  destruct (Sql.is_true (Sql.is_null _)), (Sql.is_true (is_admin _ _)),
    (Sql.is_true (assigned _ _ _)); reflexivity.
Qed.

(** C2. A non-admin authenticated caller reads a class, a syllabus entry
    or an announcement scoped to class [K] exactly when a
    ClassAssignment(caller, K) row exists. *)
Theorem select_scoped_iff_assigned (C K : uuid) (db : database) :
  non_admin (authenticated C) db ->
  (forall c, In c (classes db) -> c_id c = K ->
     (In c (visible classes_policies (authenticated C) db (classes db))
      <-> has_assignment C K db))
  /\ (forall se, In se (syllabus_entries db) -> se_class_id se = Some K ->
     (In se (visible syllabus_entries_policies (authenticated C) db
                     (syllabus_entries db))
      <-> has_assignment C K db))
  /\ (forall a, In a (announcements db) -> an_class_id a = Some K ->
     (In a (visible announcements_policies (authenticated C) db
                    (announcements db))
      <-> has_assignment C K db)).
Proof.
  intros Hrole. apply non_admin_false in Hrole.
  unfold visible. split; [|split].
  - intros c Hin HK. rewrite filter_In, classes_select, Hrole. simpl.
    subst K. rewrite assigned_iff. tauto.
  - intros se Hin HK.
    rewrite filter_In, syllabus_entries_select, Hrole, HK. simpl.
    rewrite assigned_iff. tauto.
  - intros a Hin HK.
    rewrite filter_In, announcements_select, Hrole, HK. simpl.
    rewrite assigned_iff. tauto.
Qed.

Lemma select_scoped_iff_assigned_witness :
  non_admin (authenticated "V") Sample.db
  /\ (In (Sample.class "K" "Grade 7" "Science")
         (visible classes_policies (authenticated "V") Sample.db
                  (classes Sample.db))
      <-> has_assignment "V" "K" Sample.db).
Proof.
  assert (H : non_admin (authenticated "V") Sample.db)
    by (unfold non_admin; vm_compute; discriminate).
  split; [exact H|].
  apply (proj1 (select_scoped_iff_assigned "V" "K" Sample.db H)).
  - simpl. auto.
  - reflexivity.
Defined.

(** ** Views *)

(** C3. Both views run with the caller's rights: a row of
    [pending_volunteers] is the projection of a viewer's [users] row that
    the caller can read, and a row of [volunteer_dashboard] is the join of
    a syllabus entry, a user and a class that the caller can each read. *)
Theorem views_show_only_readable_rows (s : session) (db : database) :
  (forall r, In r (select_from pending_volunteers s db) ->
     exists u, In u (visible users_policies s db (users db))
               /\ u_role u = "viewer" /\ r = pending_of u)
  /\ (forall r, In r (select_from volunteer_dashboard s db) ->
     exists se u c,
       In se (visible syllabus_entries_policies s db (syllabus_entries db))
       /\ In u (visible users_policies s db (users db))
       /\ In c (visible classes_policies s db (classes db))
       /\ r = dashboard_of se u c).
Proof.
  split; intros r Hr; unfold select_from in Hr; cbn in Hr.
  - apply in_map_iff in Hr as (u & Hr & Hu).
    apply filter_In in Hu as [Hu Hrole].
    exists u. repeat split; auto.
    destruct (String.eqb_spec (u_role u) "viewer"); [assumption|discriminate].
  - apply in_flat_map in Hr as (se & Hse & Hr).
    apply in_flat_map in Hr as (u & Hu & Hr).
    destruct (Sql.is_true (Sql.eq3 (se_volunteer_id se) (Some (u_id u))));
      [|destruct Hr].
    apply in_flat_map in Hr as (c & Hc & Hr).
    destruct (_ && _); [|destruct Hr].
    destruct Hr as [Hr|[]]. exists se, u, c. auto.
Qed.

Lemma views_show_only_readable_rows_witness :
  exists u, In u (visible users_policies (authenticated "P") Sample.db
                          (users Sample.db))
            /\ u_role u = "viewer"
            /\ pending_of (Sample.user "P" "p@x.org" "viewer") = pending_of u.
Proof.
  apply (proj1 (views_show_only_readable_rows (authenticated "P") Sample.db)).
  vm_compute. auto.
Defined.

(** ** promote_user *)

Lemma role_in_enum (r : text) :
  existsb (String.eqb r) roles = true <-> In r roles.
Proof.
  rewrite existsb_exists. split.
  - intros (x & Hin & Heq). apply String.eqb_eq in Heq. now subst.
  - intros Hin. exists r. split; [assumption | apply String.eqb_refl].
Qed.

Lemma rows_ok_set_role (r : text) (us : list users_row) :
  In r roles -> rows_ok users_row_ok (map (set_role r) us) = Ok tt.
Proof.
  intros Hr. apply role_in_enum in Hr.
  induction us as [|u us IH]; simpl; [reflexivity|].
  unfold users_row_ok at 1, valid_user_roles. simpl u_role.
  fold roles. rewrite Hr. simpl. exact IH.
Qed.

Lemma promote_user_valid (s : session) (target : uuid) (r : text)
      (db : database) :
  In r roles ->
  promote_user s target (Some r) db
  = Ok (with_users db (promoted target r (users db))).
Proof.
  intros Hr. unfold promote_user. cbn [Sql.in3 not3]. fold roles.
  rewrite (proj2 (role_in_enum r) Hr). cbn [negb Sql.is_true].
  rewrite rows_ok_set_role by assumption. reflexivity.
Qed.

(** A text outside the enum is refused with the "Invalid role" exception
    and the database stays as it was; a role inside the enum passes the
    validation and the update is carried out. *)
Lemma promote_user_text_role (s : session) (target : uuid)
      (new_role : text) (db : database) :
  (~ In new_role roles ->
     promote_user s target (Some new_role) db
       = Err (RaisedException ("Invalid role: " ++ new_role))
     /\ commit db (promote_user s target (Some new_role) db) = db)
  /\ (In new_role roles ->
     promote_user s target (Some new_role) db
       = Ok (with_users db (promoted target new_role (users db)))).
Proof.
  split.
  - intros Hout. unfold promote_user. cbn [Sql.in3 not3]. fold roles.
    destruct (existsb (String.eqb new_role) roles) eqn:E.
    + apply role_in_enum in E. contradiction.
    + simpl. auto.
  - apply promote_user_valid.
Qed.

Lemma promote_user_text_role_example :
  promote_user (authenticated "A") "P" (Some "superadmin") Sample.db
    = Err (RaisedException "Invalid role: superadmin")
  /\ commit Sample.db
            (promote_user (authenticated "A") "P" (Some "superadmin")
                          Sample.db)
     = Sample.db.
Proof.
  apply (proj1 (promote_user_text_role
                  (authenticated "A") "P" "superadmin" Sample.db)).
  unfold roles. simpl. intuition discriminate.
Qed.

(** C4. A NULL role is outside the enum, yet the validation does not
    fire for it: [new_role not in (...)] is NULL, the IF is skipped and
    no "Invalid role" exception is raised.  The call then fails on the
    NOT NULL column when the target has a row and succeeds when it has
    none; in both cases no row is changed. *)
Theorem promote_user_null_role (s : session) (target : uuid)
        (db : database) :
  promote_user s target None db
  = (if known target db then Err (NotNullViolation "role") else Ok db)
  /\ (forall message,
        promote_user s target None db <> Err (RaisedException message))
  /\ commit db (promote_user s target None db) = db.
Proof.
  unfold promote_user, known. cbn [Sql.in3 not3 Sql.is_true].
  destruct (existsb _ (users db)); cbn [negb guard bind commit];
    repeat split; intros; discriminate.
Qed.

Lemma role_after_promotion (target : uuid) (r : text) (db : database) :
  (exists u, In u (users db) /\ u_id u = target) ->
  get_current_user_role (authenticated target)
    (with_users db (promoted target r (users db))) = Some r.
Proof.
  intros (u & Hin & Hid). unfold get_current_user_role. simpl.
  induction (users db) as [|v vs IH]; [destruct Hin|].
  simpl. destruct (String.eqb_spec (u_id v) target) as [Hv|Hv].
  - simpl. rewrite Hv, String.eqb_refl. reflexivity.
  - destruct (String.eqb_spec (u_id v) target); [contradiction|].
    destruct Hin as [->|Hin]; [contradiction|]. simpl. auto.
Qed.

(** C9. [promote_user] never consults the caller: whoever calls it, with
    a role of the enum, the target's role becomes that role; so a caller
    who is not an admin makes themself one. *)
Theorem promote_user_ignores_caller (s : session) (target : uuid)
        (r : text) (db : database) :
  In r roles ->
  promote_user s target (Some r) db
    = Ok (with_users db (promoted target r (users db)))
  /\ ((exists u, In u (users db) /\ u_id u = target) ->
      get_current_user_role (authenticated target)
        (commit db (promote_user s target (Some r) db)) = Some r)
  /\ (forall me, (exists u, In u (users db) /\ u_id u = me) ->
      get_current_user_role (authenticated me)
        (commit db (promote_user (authenticated me) me (Some "admin") db))
      = Some "admin").
Proof.
  intros Hr. split; [|split].
  - now apply promote_user_valid.
  - intros Hex. rewrite promote_user_valid by assumption. simpl.
    now apply role_after_promotion.
  - intros me Hex. rewrite promote_user_valid by (unfold roles; simpl; auto).
    simpl. now apply role_after_promotion.
Qed.

Lemma promote_user_ignores_caller_witness :
  non_admin (authenticated "P") Sample.db
  /\ get_current_user_role (authenticated "P")
       (commit Sample.db
               (promote_user (authenticated "P") "P" (Some "admin")
                             Sample.db))
     = Some "admin".
Proof.
  split; [unfold non_admin; vm_compute; discriminate|].
  apply (proj1 (proj2 (promote_user_ignores_caller
                         (authenticated "P") "P" "admin" Sample.db
                         (or_introl eq_refl)))).
  exists (Sample.user "P" "p@x.org" "viewer"). simpl. tauto.
Defined.

(** ** Provisioning *)

Lemma initial_role_valid (email : text) :
  existsb (String.eqb (initial_role email)) roles = true.
Proof. unfold initial_role. destruct (String.eqb email _); reflexivity. Qed.

Lemma known_after_append (id : uuid) (db : database) (u : users_row) :
  u_id u = id -> known id (with_users db (users db ++ [u])%list) = true.
Proof.
  intros Hid. unfold known. simpl. rewrite existsb_app. simpl.
  rewrite Hid, String.eqb_refl. apply orb_true_iff. right. reflexivity.
Qed.

(** The identity with the reserved address starts as an admin, not as a
    viewer. *)
Lemma handle_new_user_reserved_address_is_admin :
  known "S" Sample.db = false
  /\ exists db',
       handle_new_user None (Sample.identity "S" "sunny@example.com") Sample.db
         = Ok db'
       /\ get_current_user_role (authenticated "S") db' = Some "admin"
       /\ forall u, In u (users db') -> u_id u = "S" -> u_role u <> "viewer".
Proof.
  split; [reflexivity|]. eexists. split; [reflexivity|].
  split; [reflexivity|].
  intros u Hin Hid. simpl in Hin.
  repeat (destruct Hin as [<-|Hin]; [discriminate|]).
  destruct Hin.
Qed.

(** C5 (amended). The trigger never fails.  For an identity without a
    [users] row it appends one row carrying the identity's id, email and
    name, whose role is viewer, or admin when the email is the reserved
    address; for an identity that already has a row it changes nothing.
    Running it again for the same identity changes nothing. *)
Theorem handle_new_user_provisions (created_at : option text)
        (new : auth_users_row) (db : database) :
  exists db',
    handle_new_user created_at new db = Ok db'
    /\ (if known (au_id new) db then db' = db
        else exists u,
            users db' = (users db ++ [u])%list
            /\ u_id u = au_id new
            /\ u_email u = au_email new
            /\ u_name u = json_text (au_raw_user_meta_data new) "name"
            /\ (au_email new <> "sunny@example.com" -> u_role u = "viewer")
            /\ (au_email new = "sunny@example.com" -> u_role u = "admin"))
    /\ forall created_at', handle_new_user created_at' new db' = Ok db'.
Proof.
  unfold handle_new_user, users_row_ok, valid_user_roles. cbn [u_role u_id].
  fold (initial_role (au_email new)). fold roles.
  rewrite initial_role_valid. cbn [guard bind]. unfold known at 1.
  destruct (existsb _ (users db)) eqn:Hk.
  - exists db. split; [reflexivity|]. split; [reflexivity|].
    intros c. rewrite Hk. reflexivity.
  - eexists. split; [reflexivity|]. split.
    + eexists. split; [reflexivity|]. simpl. unfold initial_role.
      destruct (String.eqb_spec (au_email new) "sunny@example.com");
        repeat split; auto; intros; congruence.
    + intros c.
      match goal with
      | |- (if ?b then _ else _) = _ =>
          replace b with true; [reflexivity|]
      end.
      symmetry. apply (known_after_append (au_id new) db). reflexivity.
Qed.

(** The superseded definition did make every new identity a viewer. *)
Lemma superseded_handle_new_user_viewer (created_at : option text)
      (new : auth_users_row) (db : database) :
  known (au_id new) db = false ->
  exists u, Superseded.handle_new_user created_at new db
              = Ok (with_users db (users db ++ [u])%list)
            /\ u_id u = au_id new /\ u_role u = "viewer".
Proof.
  intros Hk. unfold Superseded.handle_new_user. cbn.
  fold (known (au_id new) db). rewrite Hk.
  eexists. split; [reflexivity|]. simpl. auto.
Qed.

(** ** INSERT on users *)

Lemma pairwise_distinct_app {A} (same : A -> A -> bool) (l : list A) (x : A) :
  pairwise_distinct same (l ++ [x]) =
  pairwise_distinct same l && negb (existsb (fun y => same y x) l).
Proof.
  induction l as [|y l IH]; simpl; [reflexivity|].
  rewrite existsb_app, IH. simpl.
  destruct (existsb (same y) l), (same y x), (pairwise_distinct same l),
    (existsb (fun y0 => same y0 x) l); reflexivity.
Qed.

Lemma key_unique_app {row} (key : row -> uuid) (l : list row) (x : row) :
  key_unique key (l ++ [x]) =
  key_unique key l && negb (existsb (fun y => String.eqb (key y) (key x)) l).
Proof. unfold key_unique. now rewrite pairwise_distinct_app. Qed.

(** C10. The INSERT policy of [users] passes for every caller and every
    row; a row with a role of the enum and an unused id is therefore
    stored, whoever inserts it and whatever id and role it carries. *)
Theorem users_insert_unrestricted (s : session) (db : database)
        (new : users_row) :
  passes_check INSERT users_policies s db new = true
  /\ (valid_user_roles new = true ->
      users_pkey (users db) = true ->
      known (u_id new) db = false ->
      insert_users false s new db
        = Ok (with_users db (users db ++ [new])%list)).
Proof.
  split; [reflexivity|].
  intros Hrole Hpk Hfresh.
  unfold insert_users, insert, users_row_ok, users_table_ok, users_pkey in *.
  replace (passes_check INSERT users_policies s db new) with true
    by reflexivity.
  rewrite Hrole. cbn [may_read andb guard bind].
  unfold known in Hfresh. rewrite key_unique_app, Hpk, Hfresh. reflexivity.
Qed.

Lemma users_insert_unrestricted_witness :
  insert_users false (authenticated "P") (Sample.user "X" "x@x.org" "admin")
               Sample.db
  = Ok (with_users Sample.db
          (users Sample.db ++ [Sample.user "X" "x@x.org" "admin"])%list).
Proof.
  apply (proj2 (users_insert_unrestricted
                  (authenticated "P") Sample.db
                  (Sample.user "X" "x@x.org" "admin")));
    reflexivity.
Defined.

(** ** Writing syllabus entries *)

Lemma own_and_assigned_iff (v : uuid) (db : database)
      (se : syllabus_entries_row) :
  Sql.is_true (Sql.eq3 (se_volunteer_id se) (Some v))
  && Sql.is_true (assigned (authenticated v) db (se_class_id se)) = true
  <-> own_and_assigned v db se.
Proof.
  unfold own_and_assigned. rewrite andb_true_iff, is_true_eq3. split.
  - intros [(x & Hx & Hv) Ha]. split; [congruence|].
    destruct (se_class_id se) as [k|].
    + exists k. split; [reflexivity|]. now apply assigned_iff.
    + rewrite assigned_null in Ha. discriminate.
  - intros [Hv (k & Hk & Ha)]. split; [eauto|].
    rewrite Hk. now apply assigned_iff.
Qed.

(** The two FOR ALL policies decide every write, and they apply to
    SELECT as well. *)
Lemma syllabus_entries_write (u : uuid) (db : database)
      (se : syllabus_entries_row) :
  let own :=
    Sql.is_true (Sql.eq3 (se_volunteer_id se) (Some u))
    && Sql.is_true (assigned (authenticated u) db (se_class_id se)) in
  let admin := Sql.is_true (is_admin (authenticated u) db) in
  passes_check INSERT syllabus_entries_policies (authenticated u) db se
    = own || admin
  /\ passes_using UPDATE syllabus_entries_policies (authenticated u) db se
    = own || admin
  /\ passes_check UPDATE syllabus_entries_policies (authenticated u) db se
    = own || admin.
Proof.
  repeat split; eval_policies; rewrite !is_true_and3; reflexivity.
Qed.

Lemma syllabus_entries_write_may_read (u : uuid) (db : database)
      (se : syllabus_entries_row) (reads : bool) :
  Sql.is_true (Sql.eq3 (se_volunteer_id se) (Some u))
  && Sql.is_true (assigned (authenticated u) db (se_class_id se)) = true ->
  may_read syllabus_entries_policies reads (authenticated u) db se = true.
Proof.
  intros H. apply andb_prop in H as [_ H].
  destruct reads; [|reflexivity]. unfold may_read.
  rewrite syllabus_entries_select, H. apply orb_true_r.
Qed.

(** C6. For a caller [V] who is not an admin, inserting a syllabus entry
    (with an unused id) succeeds exactly when the entry names [V] as its
    volunteer and [V] is assigned to its class; otherwise the policy
    rejects it. *)
Theorem syllabus_insert_iff_own_and_assigned (V : uuid) (db : database)
        (new : syllabus_entries_row) (reads : bool) :
  non_admin (authenticated V) db ->
  syllabus_entries_pkey (syllabus_entries db ++ [new]) = true ->
  (insert_syllabus_entries reads (authenticated V) new db
     = Ok (with_syllabus_entries db (syllabus_entries db ++ [new])%list)
   <-> own_and_assigned V db new)
  /\ (insert_syllabus_entries reads (authenticated V) new db
        = Err (RlsViolation "syllabus_entries")
      <-> ~ own_and_assigned V db new).
Proof.
  intros Hrole Hpk. apply non_admin_false in Hrole.
  unfold insert_syllabus_entries, insert, syllabus_entries_table_ok.
  rewrite (proj1 (syllabus_entries_write V db new)), Hrole, orb_false_r.
  rewrite Hpk. cbn [no_constraint guard bind].
  rewrite <- own_and_assigned_iff.
  destruct (Sql.is_true (Sql.eq3 (se_volunteer_id new) (Some V))
            && Sql.is_true (assigned (authenticated V) db (se_class_id new)))
    eqn:Hown.
  - rewrite syllabus_entries_write_may_read by assumption. simpl.
    split; split; intros H; auto; try discriminate. now elim H.
  - simpl. split; split; intros H; auto; discriminate.
Qed.

Lemma syllabus_insert_iff_own_and_assigned_witness :
  insert_syllabus_entries true (authenticated "V")
                          (Sample.entry "G" "K" "V" false) Sample.db
    = Ok (with_syllabus_entries Sample.db
            (syllabus_entries Sample.db
               ++ [Sample.entry "G" "K" "V" false])%list)
  /\ insert_syllabus_entries true (authenticated "V")
                             (Sample.entry "G" "K" "W" false) Sample.db
     = Err (RlsViolation "syllabus_entries").
Proof.
  assert (Hrole : non_admin (authenticated "V") Sample.db)
    by (unfold non_admin; vm_compute; discriminate).
  split.
  - apply (proj1 (syllabus_insert_iff_own_and_assigned
                    "V" Sample.db (Sample.entry "G" "K" "V" false) true
                    Hrole eq_refl)).
    split; [reflexivity|]. exists "K". split; [reflexivity|].
    exists (Sample.assignment "a1" "V" "K"). simpl. tauto.
  - apply (proj2 (syllabus_insert_iff_own_and_assigned
                    "V" Sample.db (Sample.entry "G" "K" "W" false) true
                    Hrole eq_refl)).
    intros [Hv _]. discriminate.
Defined.

(** ** Tables with a primary key *)

Section KeyedTable.

Variable row : Type.
Variable key : row -> uuid.


Lemma same_key_exists (x : row) (l : list row) :
  existsb (same_key key x) l = true <-> exists y, In y l /\ key x = key y.
Proof.
  unfold same_key. rewrite existsb_exists. split.
  - intros (y & Hin & Heq). apply String.eqb_eq in Heq. eauto.
  - intros (y & Hin & Heq). exists y. split; [assumption|].
    now apply String.eqb_eq.
Qed.

Lemma key_unique_In (l : list row) (x y : row) :
  key_unique key l = true -> In x l -> In y l -> key x = key y -> x = y.
Proof.
  unfold key_unique. induction l as [|a l IH]; simpl; [intros _ []|].
  intros Hu Hx Hy Hk. apply andb_prop in Hu as [Ha Hl].
  apply negb_true_iff in Ha.
  destruct Hx as [->|Hx], Hy as [->|Hy]; auto.
  - assert (existsb (same_key key x) l = true)
      by (apply same_key_exists; eauto).
    congruence.
  - assert (existsb (same_key key y) l = true)
      by (apply same_key_exists; eauto).
    congruence.
Qed.

Lemma same_key_map (f : row -> row) (x : row) (l : list row) :
  key (f x) = key x ->
  (forall r, In r l -> key (f r) = key r) ->
  existsb (same_key key (f x)) (map f l) = existsb (same_key key x) l.
Proof.
  intros Hx. induction l as [|a l IH]; simpl; [reflexivity|].
  intros Hf. rewrite IH by auto. unfold same_key.
  now rewrite Hx, (Hf a) by auto.
Qed.

Lemma key_unique_map (f : row -> row) (l : list row) :
  (forall r, In r l -> key (f r) = key r) ->
  key_unique key (map f l) = key_unique key l.
Proof.
  unfold key_unique. induction l as [|a l IH]; simpl; [reflexivity|].
  intros Hf. rewrite IH, same_key_map by auto. reflexivity.
Qed.

Variable table : string.
Variable ps : list (policy row).
Variable row_ok : row -> result unit.
Variable err : error.

Variable table_ok : list row -> result unit.
Hypothesis table_ok_key : forall l, table_ok l = guard (key_unique key l) err.

Lemma rows_ok_copies (E : row) (set : row -> row) (l : list row) :
  (forall r, In r l -> r = E) ->
  row_ok (set E) = Ok tt ->
  rows_ok row_ok (map set l) = Ok tt.
Proof.
  intros Hall Hrow. induction l as [|r l IH]; [reflexivity|].
  simpl. rewrite (Hall r) by (now left). rewrite Hrow. simpl.
  apply IH. intros r0 Hr0. apply Hall. now right.
Qed.

(** An UPDATE that selects one stored row by its key and keeps the key:
    it succeeds as soon as the policies let the caller reach the row and
    accept what it becomes. *)
Lemma update_by_key (reads : bool) (s : session) (db : database)
      (E : row) (set : row -> row) (rows : list row) :
  key_unique key rows = true ->
  In E rows ->
  passes_using UPDATE ps s db E = true ->
  may_read ps reads s db E = true ->
  passes_check UPDATE ps s db (set E) = true ->
  may_read ps reads s db (set E) = true ->
  row_ok (set E) = Ok tt ->
  key (set E) = key E ->
  update table ps row_ok table_ok reads s db
         (fun r => String.eqb (key r) (key E)) set rows
  = Ok (map (fun r => if String.eqb (key r) (key E) then set r else r) rows).
Proof.
  intros Hu HE Husing Hread Hcheck Hread' Hrow Hkey.
  assert (Hsel : forall r, In r rows ->
            update_target ps reads s db
              (fun r => String.eqb (key r) (key E)) r
            = String.eqb (key r) (key E)).
  { intros r Hr. unfold update_target.
    destruct (String.eqb_spec (key r) (key E)) as [Heq|]; [|reflexivity].
    rewrite (key_unique_In rows r E Hu Hr HE Heq), Husing, Hread.
    reflexivity. }
  assert (Hnews : filter (update_target ps reads s db
                            (fun r => String.eqb (key r) (key E))) rows
                  = filter (fun r => String.eqb (key r) (key E)) rows)
    by (apply filter_ext_in; assumption).
  assert (Hrows : map (fun r => if update_target ps reads s db
                                     (fun r => String.eqb (key r) (key E)) r
                                then set r else r) rows
                  = map (fun r => if String.eqb (key r) (key E)
                                  then set r else r) rows).
  { apply map_ext_in. intros r Hr. now rewrite Hsel. }
  unfold update. rewrite Hnews, Hrows.
  assert (Hall : forall r, In r (filter (fun r => String.eqb (key r) (key E))
                                        rows) -> r = E).
  { intros r Hr. apply filter_In in Hr as [Hr Heq].
    apply String.eqb_eq in Heq. eapply key_unique_In; eauto. }
  replace (forallb _ _) with true.
  2:{ symmetry. apply forallb_forall. intros r' Hr'.
      apply in_map_iff in Hr' as (r & <- & Hr).
      rewrite (Hall r Hr), Hcheck, Hread'. reflexivity. }
  cbn [guard bind].
  rewrite (rows_ok_copies E set _ Hall Hrow).
  cbn [bind]. rewrite table_ok_key, key_unique_map, Hu; [reflexivity|].
  intros r Hr. destruct (String.eqb_spec (key r) (key E)) as [Heq|];
    [|reflexivity].
  now rewrite (key_unique_In rows r E Hu Hr HE Heq).
Qed.

End KeyedTable.

(** ** Updating syllabus entries *)

Lemma Forall2_map_self {A} (R : A -> A -> Prop) (f : A -> A) (l : list A) :
  (forall x, In x l -> R x (f x)) -> Forall2 R l (map f l).
Proof.
  intros H. induction l as [|x l IH]; simpl; constructor.
  - apply H. now left.
  - apply IH. intros y Hy. apply H. now right.
Qed.

(** What a successful UPDATE returns, for any table. *)
Lemma update_ok {row : Type} (table : string) (ps : list (policy row))
      (row_ok : row -> result unit) (table_ok : list row -> result unit)
      (reads : bool) (s : session) (db : database)
      (where_ : row -> bool) (set : row -> row) (rows rows' : list row) :
  update table ps row_ok table_ok reads s db where_ set rows = Ok rows' ->
  rows' = map (fun r => if update_target ps reads s db where_ r
                        then set r else r) rows
  /\ forall r, In r rows -> update_target ps reads s db where_ r = true ->
               passes_using UPDATE ps s db r = true
               /\ passes_check UPDATE ps s db (set r) = true.
Proof.
  unfold update.
  destruct (forallb _ _) eqn:Hchk; cbn [guard bind]; [|discriminate].
  destruct (rows_ok _ _) as [[]|]; cbn [bind]; [|discriminate].
  destruct (table_ok _) as [[]|]; cbn [bind]; [|discriminate].
  intros [= <-]. split; [reflexivity|].
  intros r Hr Ht. split.
  - unfold update_target in Ht. apply andb_prop in Ht as [Ht _].
    now apply andb_prop in Ht as [_ Ht].
  - rewrite forallb_forall in Hchk.
    assert (H : In (set r) (map set (filter (update_target ps reads s db
                                                           where_) rows)))
      by (apply in_map, filter_In; auto).
    apply Hchk in H. now apply andb_prop in H as [H _].
Qed.

Lemma rows_ok_all {row : Type} (row_ok : row -> result unit)
      (l : list row) :
  (forall r, In r l -> row_ok r = Ok tt) -> rows_ok row_ok l = Ok tt.
Proof.
  intros H. induction l as [|r l IH]; [reflexivity|]. simpl.
  rewrite H by (now left). simpl. apply IH. intros x Hx. apply H. now right.
Qed.

(** A volunteer who is not an admin approves their own entry. *)
Lemma volunteer_approves_own_entry :
  non_admin (authenticated "V") Sample.db
  /\ In (Sample.entry "E" "K" "V" false) (syllabus_entries Sample.db)
  /\ update_syllabus_entries true (authenticated "V")
       (fun se => String.eqb (se_id se) "E") (set_approved (Some true))
       Sample.db
     = Ok (with_syllabus_entries Sample.db
             [Sample.entry "E" "K" "V" true; Sample.entry "F" "L" "W" true]).
Proof.
  split; [unfold non_admin; vm_compute; discriminate|].
  split; [simpl; auto|]. reflexivity.
Qed.

Lemma may_write_entry_passes (u : uuid) (db : database)
      (se : syllabus_entries_row) (reads : bool) :
  may_write_entry u db se ->
  passes_using UPDATE syllabus_entries_policies (authenticated u) db se = true
  /\ passes_check UPDATE syllabus_entries_policies (authenticated u) db se
     = true
  /\ may_read syllabus_entries_policies reads (authenticated u) db se = true.
Proof.
  intros H.
  destruct (syllabus_entries_write u db se) as (_ & -> & ->).
  destruct H as [H|H].
  - apply own_and_assigned_iff in H. rewrite H.
    repeat split; auto. now apply syllabus_entries_write_may_read.
  - apply is_admin_true in H. rewrite H, orb_true_r. repeat split.
    destruct reads; [|reflexivity]. unfold may_read.
    rewrite syllabus_entries_select, H. reflexivity.
Qed.

Lemma no_identity_role (s : session) (db : database) :
  auth_uid s = None -> get_current_user_role s db = None.
Proof.
  intros H. unfold get_current_user_role. rewrite H.
  now induction (users db).
Qed.

(** A request without an identity passes no UPDATE policy of
    [syllabus_entries]. *)
Lemma syllabus_entries_no_identity (s : session) (db : database)
      (se : syllabus_entries_row) :
  auth_uid s = None ->
  passes_using UPDATE syllabus_entries_policies s db se = false.
Proof.
  intros H. eval_policies. unfold is_admin.
  rewrite (no_identity_role s db H), H.
  destruct (is_authenticated s) as [[|]|], (se_volunteer_id se),
    (assigned s db (se_class_id se)) as [[|]|]; reflexivity.
Qed.

Lemma with_syllabus_entries_id (db : database) :
  with_syllabus_entries db (syllabus_entries db) = db.
Proof. destruct db. reflexivity. Qed.

(** C7 (amended). The policies of [syllabus_entries] look at the
    volunteer and the class of a row and at no other column.  So the
    approval flag of an entry, like every other column, can be changed by
    an admin and by the entry's own volunteer while assigned to its
    class, and by nobody else: an UPDATE by a caller who is not an admin
    leaves every entry as it was unless the entry names the caller and a
    class of theirs before and after, and an UPDATE by a request without
    an identity changes nothing.  The volunteer and the admin may rewrite
    any column, the flag included, when the row they write refers to a
    stored class and user. *)
Theorem syllabus_update_owner_or_admin (u : uuid) (db : database) :
  (non_admin (authenticated u) db ->
   forall reads where_ set db',
     update_syllabus_entries reads (authenticated u) where_ set db = Ok db' ->
     Forall2 (fun old new =>
                new = old
                \/ (own_and_assigned u db old /\ own_and_assigned u db new))
             (syllabus_entries db) (syllabus_entries db'))
  /\ (forall s reads where_ set db',
        auth_uid s = None ->
        update_syllabus_entries reads s where_ set db = Ok db' -> db' = db)
  /\ (forall E set,
        syllabus_entries_pkey (syllabus_entries db) = true ->
        In E (syllabus_entries db) ->
        may_write_entry u db E ->
        may_write_entry u db (set E) ->
        se_id (set E) = se_id E ->
        syllabus_entries_fkeys_on_update db E (set E) = Ok tt ->
        update_syllabus_entries true (authenticated u)
          (fun se => String.eqb (se_id se) (se_id E)) set db
        = Ok (with_syllabus_entries db
                (map (fun se => if String.eqb (se_id se) (se_id E)
                                then set se else se)
                     (syllabus_entries db)))).
Proof.
  split; [|split].
  - intros Hrole reads where_ set db'. apply non_admin_false in Hrole.
    unfold update_syllabus_entries.
    destruct (update _ _ _ _ _ _ _ _ _ _) as [rows'|] eqn:Hup;
      cbn [bind]; [|discriminate].
    destruct (rows_ok _ _) as [[]|]; cbn [bind]; [|discriminate].
    intros [= <-]. cbn [syllabus_entries with_syllabus_entries].
    apply update_ok in Hup as [-> Hpass].
    apply Forall2_map_self. intros se Hse.
    destruct (update_target _ _ _ _ _ se) eqn:Ht; [|now left].
    destruct (Hpass se Hse Ht) as [Husing Hcheck]. right.
    rewrite (proj1 (proj2 (syllabus_entries_write u db se))) in Husing.
    rewrite (proj2 (proj2 (syllabus_entries_write u db (set se)))) in Hcheck.
    rewrite Hrole, orb_false_r in Husing, Hcheck.
    split; now apply own_and_assigned_iff.
  - intros s reads where_ set db' Hs. unfold update_syllabus_entries.
    destruct (update _ _ _ _ _ _ _ _ _ _) as [rows'|] eqn:Hup;
      cbn [bind]; [|discriminate].
    destruct (rows_ok _ _) as [[]|]; cbn [bind]; [|discriminate].
    intros [= <-]. apply update_ok in Hup as [-> _].
    transitivity (with_syllabus_entries db (syllabus_entries db));
      [|apply with_syllabus_entries_id].
    f_equal.
    transitivity (map (fun se => se) (syllabus_entries db));
      [|apply map_id].
    apply map_ext. intros se. unfold update_target.
    rewrite (syllabus_entries_no_identity s db se Hs), andb_false_r.
    reflexivity.
  - intros E set Hpk HE Hold Hnew Hid Hfk.
    apply (may_write_entry_passes _ _ _ true) in Hold as (Hu & _ & Hr).
    apply (may_write_entry_passes _ _ _ true) in Hnew as (_ & Hc & Hr').
    unfold update_syllabus_entries.
    rewrite (update_by_key syllabus_entries_row se_id "syllabus_entries"
               syllabus_entries_policies no_constraint
               (UniqueViolation "syllabus_entries_pkey")
               syllabus_entries_table_ok (fun _ => eq_refl)
               true (authenticated u) db E set (syllabus_entries db));
      auto.
    cbn [bind]. rewrite rows_ok_all; [reflexivity|].
    intros r Hr0. apply filter_In in Hr0 as [Hin Ht].
    unfold update_target in Ht. apply andb_prop in Ht as [Ht _].
    apply andb_prop in Ht as [Ht _]. apply String.eqb_eq in Ht.
    now rewrite (key_unique_In syllabus_entries_row se_id
                               (syllabus_entries db) r E Hpk Hin HE Ht).
Qed.

Lemma syllabus_update_owner_or_admin_witness :
  update_syllabus_entries true (authenticated "V")
    (fun se => String.eqb (se_id se) "E") (set_approved (Some true))
    Sample.db
  = Ok (with_syllabus_entries Sample.db
          (map (fun se => if String.eqb (se_id se) "E"
                          then set_approved (Some true) se else se)
               (syllabus_entries Sample.db)))
  /\ Forall2 (fun old new =>
                new = old
                \/ (own_and_assigned "V" Sample.db old
                    /\ own_and_assigned "V" Sample.db new))
             (syllabus_entries Sample.db)
             [Sample.entry "E" "K" "V" true; Sample.entry "F" "L" "W" true]
  /\ update_syllabus_entries true anon (fun _ => true)
       (set_approved (Some true)) Sample.db
     = Ok Sample.db.
Proof.
  assert (Hown : forall b, own_and_assigned "V" Sample.db
                             (Sample.entry "E" "K" "V" b)).
  { intros b. split; [reflexivity|]. exists "K". split; [reflexivity|].
    exists (Sample.assignment "a1" "V" "K"). simpl. tauto. }
  assert (Hrole : non_admin (authenticated "V") Sample.db)
    by (unfold non_admin; vm_compute; discriminate).
  split; [|split].
  - apply (proj2 (proj2 (syllabus_update_owner_or_admin "V" Sample.db))
                 (Sample.entry "E" "K" "V" false) (set_approved (Some true))).
    + reflexivity.
    + simpl. auto.
    + left. apply Hown.
    + left. apply (Hown true).
    + reflexivity.
    + reflexivity.
  - apply (proj1 (syllabus_update_owner_or_admin "V" Sample.db) Hrole
                 true (fun _ => true) (set_approved (Some true))
                 (with_syllabus_entries Sample.db
                    [Sample.entry "E" "K" "V" true;
                     Sample.entry "F" "L" "W" true])).
    reflexivity.
  - destruct (update_syllabus_entries true anon (fun _ => true)
                (set_approved (Some true)) Sample.db) as [db'|e] eqn:Hrun;
      [|discriminate Hrun].
    f_equal.
    exact (proj1 (proj2 (syllabus_update_owner_or_admin "V" Sample.db))
                 anon true (fun _ => true) (set_approved (Some true)) db'
                 eq_refl Hrun).
Defined.

(** ** Updating users *)

Lemma users_update_using (s : session) (db : database) (u : users_row) :
  passes_using UPDATE users_policies s db u
  = Sql.is_true (Sql.eq3 (Some (u_id u)) (auth_uid s)).
Proof. eval_policies. reflexivity. Qed.

Lemma users_update_check (s : session) (db : database) (u : users_row) :
  passes_check UPDATE users_policies s db u
  = Sql.is_true (Sql.eq3 (Some (u_id u)) (auth_uid s))
    && (Sql.is_true (Sql.eq3 (Some (u_role u)) (own_stored_role s db))
        || Sql.is_true (is_admin s db)).
Proof. eval_policies. rewrite is_true_and3, is_true_or3. reflexivity. Qed.

Lemma users_select (s : session) (db : database) (u : users_row) :
  passes_using SELECT users_policies s db u
  = Sql.is_true (Sql.eq3 (Some (u_id u)) (auth_uid s))
    || Sql.is_true (is_admin s db).
Proof. eval_policies. rewrite is_true_or3. reflexivity. Qed.

Lemma own_row (s : session) (u : users_row) :
  Sql.is_true (Sql.eq3 (Some (u_id u)) (auth_uid s)) = true <->
  auth_uid s = Some (u_id u).
Proof.
  rewrite is_true_eq3. split.
  - intros (x & Hx & Hs). congruence.
  - intros H. eauto.
Qed.

(** The subquery of the update policy returns the role stored in the
    caller's own row. *)
Lemma own_stored_role_of_row (s : session) (db : database) (r : users_row) :
  users_pkey (users db) = true ->
  In r (users db) ->
  auth_uid s = Some (u_id r) ->
  own_stored_role s db = Some (u_role r).
Proof.
  intros Hpk Hin Hid. unfold own_stored_role.
  assert (Hr : In r (filter (fun u => Sql.is_true
                                        (Sql.eq3 (Some (u_id u)) (auth_uid s)))
                            (visible [users_select_policy] s db (users db)))).
  { apply filter_In. split; [|now apply own_row].
    apply filter_In. split; [assumption|].
    eval_policies. rewrite is_true_or3, (proj2 (own_row s r) Hid).
    reflexivity. }
  destruct (filter _ (visible _ _ _ _)) as [|h t] eqn:E; [destruct Hr|].
  assert (Hh : In h (h :: t)) by now left.
  rewrite <- E in Hh. apply filter_In in Hh as [Hh Hown].
  apply filter_In in Hh as [Hh _]. apply own_row in Hown.
  f_equal. f_equal.
  apply (key_unique_In users_row u_id (users db)); auto. congruence.
Qed.

Lemma current_user_row (s : session) (db : database) (x : text) :
  get_current_user_role s db = Some x ->
  exists u, In u (users db) /\ auth_uid s = Some (u_id u) /\ u_role u = x.
Proof.
  unfold get_current_user_role.
  destruct (filter _ (users db)) as [|h t] eqn:E; [discriminate|].
  intros [= <-]. assert (Hh : In h (h :: t)) by now left.
  rewrite <- E in Hh. apply filter_In in Hh as [Hh Hown].
  apply own_row in Hown. eauto.
Qed.

(** C1. Whatever rows an UPDATE of [users] selects and whatever it
    writes, when the caller is not an admin it either fails or leaves
    every stored role as it was; a caller who is an admin may give their
    own row any role of the enum. *)
Theorem role_escalation_guard (s : session) (db : database) (reads : bool)
        (where_ : users_row -> bool) (set : users_row -> users_row) :
  users_pkey (users db) = true ->
  (non_admin s db ->
   forall db', update_users reads s where_ set db = Ok db' ->
               map u_role (users db') = map u_role (users db))
  /\ (forall A r,
        s = authenticated A ->
        get_current_user_role s db = Some "admin" ->
        In r roles ->
        update_users true s (fun u => String.eqb (u_id u) A) (set_role r) db
        = Ok (with_users db (promoted A r (users db)))).
Proof.
  intros Hpk. split.
  - intros Hrole db'. apply non_admin_false in Hrole.
    unfold update_users, update.
    destruct (forallb _ _) eqn:Hchk; cbn [guard bind]; [|discriminate].
    destruct (rows_ok _ _) as [[]|]; cbn [bind]; [|discriminate].
    destruct (users_table_ok _) as [[]|]; cbn [bind]; [|discriminate].
    intros [= <-]. simpl users. rewrite map_map.
    apply map_ext_in. intros r Hr.
    destruct (update_target users_policies reads s db where_ r) eqn:Ht;
      [|reflexivity].
    rewrite forallb_forall in Hchk.
    specialize (Hchk (set r)). rewrite in_map_iff in Hchk.
    assert (Hc : passes_check UPDATE users_policies s db (set r)
                 && may_read users_policies reads s db (set r) = true).
    { apply Hchk. exists r. split; [reflexivity|]. now apply filter_In. }
    apply andb_prop in Hc as [Hc _].
    rewrite users_update_check, Hrole, orb_false_r in Hc.
    apply andb_prop in Hc as [_ Hc].
    unfold update_target in Ht.
    apply andb_prop in Ht as [Ht _]. apply andb_prop in Ht as [_ Ht].
    rewrite users_update_using in Ht. apply own_row in Ht.
    rewrite (own_stored_role_of_row s db r Hpk Hr Ht) in Hc.
    rewrite is_true_eq3_Some in Hc. now apply String.eqb_eq in Hc.
  - intros A r -> Hadmin Hr.
    destruct (current_user_row _ _ _ Hadmin) as (E & HE & Hid & _).
    simpl in Hid. injection Hid as ->.
    apply is_admin_true in Hadmin.
    unfold update_users, promoted.
    rewrite (update_by_key users_row u_id "users" users_policies
               users_row_ok (UniqueViolation "users_pkey")
               users_table_ok (fun _ => eq_refl)
               true (authenticated (u_id E)) db E (set_role r) (users db));
      auto.
    + rewrite users_update_using. now apply own_row.
    + unfold may_read. rewrite users_select, Hadmin. apply orb_true_r.
    + rewrite users_update_check, Hadmin, orb_true_r, andb_true_r.
      now apply own_row.
    + unfold may_read. rewrite users_select, Hadmin. apply orb_true_r.
    + unfold users_row_ok, valid_user_roles. simpl u_role. fold roles.
      now rewrite (proj2 (role_in_enum r) Hr).
Qed.

Lemma role_escalation_guard_witness :
  non_admin (authenticated "V") Sample.db
  /\ update_users true (authenticated "V")
       (fun u => String.eqb (u_id u) "V") (set_role "admin") Sample.db
     = Err (RlsViolation "users")
  /\ (forall db',
        update_users true (authenticated "V")
          (fun u => String.eqb (u_id u) "V") (set_role "volunteer") Sample.db
        = Ok db' ->
        map u_role (users db') = map u_role (users Sample.db))
  /\ update_users true (authenticated "A")
       (fun u => String.eqb (u_id u) "A") (set_role "volunteer") Sample.db
     = Ok (with_users Sample.db (promoted "A" "volunteer" (users Sample.db))).
Proof.
  assert (Hrole : non_admin (authenticated "V") Sample.db)
    by (unfold non_admin; vm_compute; discriminate).
  split; [exact Hrole|]. split; [reflexivity|]. split.
  - exact (proj1 (role_escalation_guard
                    (authenticated "V") Sample.db true
                    (fun u => String.eqb (u_id u) "V") (set_role "volunteer")
                    eq_refl) Hrole).
  - apply (proj2 (role_escalation_guard
                    (authenticated "A") Sample.db true
                    (fun u => String.eqb (u_id u) "A") (set_role "volunteer")
                    eq_refl) "A" "volunteer"); try reflexivity.
    unfold roles. simpl. auto.
Defined.

(** ** Assigning a class *)

Lemma class_assignments_admin_only (s : session) (db : database)
      (ca : class_assignments_row) :
  passes_check INSERT class_assignments_policies s db ca
    = Sql.is_true (is_admin s db)
  /\ passes_using UPDATE class_assignments_policies s db ca
    = Sql.is_true (is_admin s db)
  /\ passes_check UPDATE class_assignments_policies s db ca
    = Sql.is_true (is_admin s db)
  /\ (Sql.is_true (is_admin s db) = true ->
      passes_using SELECT class_assignments_policies s db ca = true).
Proof.
  repeat split; try (eval_policies; reflexivity).
  intros H. eval_policies. rewrite is_true_or3, H.
  rewrite orb_true_r. reflexivity.
Qed.

Lemma classes_admin_sees_all (s : session) (db : database) :
  Sql.is_true (is_admin s db) = true ->
  visible classes_policies s db (classes db) = classes db.
Proof.
  intros H. unfold visible. apply forallb_filter_id.
  apply forallb_forall. intros c _. eval_policies.
  rewrite H. apply orb_true_r.
Qed.

Lemma same_assignment_iff (a b : class_assignments_row) :
  same_assignment a b = true <->
  exists u k, ca_user_id a = Some u /\ ca_class_id a = Some k
              /\ ca_user_id b = Some u /\ ca_class_id b = Some k.
Proof.
  unfold same_assignment. rewrite is_true_and3, andb_true_iff, !is_true_eq3.
  split.
  - intros [(u & Hu & Hu') (k & Hk & Hk')]. exists u, k. auto.
  - intros (u & k & Hu & Hk & Hu' & Hk'). split; eauto.
Qed.

Lemma relates_iff (u k : uuid) (ca : class_assignments_row) :
  Sql.is_true (Sql.eq3 (ca_user_id ca) (Some u)
               &&& Sql.eq3 (ca_class_id ca) (Some k)) = true <->
  ca_user_id ca = Some u /\ ca_class_id ca = Some k.
Proof.
  rewrite is_true_and3, andb_true_iff, !is_true_eq3. split.
  - intros [(x & Hx & Hx') (y & Hy & Hy')]. split; congruence.
  - intros [Hu Hk]. split; eauto.
Qed.

(** Under the unique constraint a (user, class) pair that occurs occurs
    once. *)
Lemma unique_pair_once (u k : uuid) (l : list class_assignments_row) :
  class_assignments_user_class_key l = true ->
  (exists r, In r l /\ ca_user_id r = Some u /\ ca_class_id r = Some k) ->
  List.length
    (filter (fun ca => Sql.is_true (Sql.eq3 (ca_user_id ca) (Some u)
                                    &&& Sql.eq3 (ca_class_id ca) (Some k)))
            l) = 1.
Proof.
  unfold class_assignments_user_class_key.
  induction l as [|x l IH]; simpl; intros Hkey (r & Hin & Hu & Hk);
    [destruct Hin|].
  apply andb_prop in Hkey as [Hx Hl]. apply negb_true_iff in Hx.
  destruct (Sql.is_true (Sql.eq3 (ca_user_id x) (Some u)
                         &&& Sql.eq3 (ca_class_id x) (Some k))) eqn:Hm.
  - simpl. f_equal. apply relates_iff in Hm as [Hxu Hxk].
    destruct (filter _ l) as [|y t] eqn:E; [reflexivity|].
    assert (Hy : In y (y :: t)) by now left.
    rewrite <- E in Hy. apply filter_In in Hy as [Hy Hym].
    apply relates_iff in Hym as [Hyu Hyk].
    assert (existsb (same_assignment x) l = true).
    { apply existsb_exists. exists y. split; [assumption|].
      apply same_assignment_iff. exists u, k. auto. }
    congruence.
  - destruct Hin as [->|Hin].
    + rewrite (proj2 (relates_iff u k r)) in Hm by auto. discriminate.
    + apply IH; eauto.
Qed.

Lemma merge_assignment_same (old new : class_assignments_row) :
  same_assignment new old = true -> merge_assignment old new = old.
Proof.
  intros H. apply same_assignment_iff in H as (u & k & Hu & Hk & Hu' & Hk').
  destruct old, new. unfold merge_assignment. simpl in *. congruence.
Qed.

Lemma with_class_assignments_id (db : database) :
  with_class_assignments db (class_assignments db) = db.
Proof. destruct db. reflexivity. Qed.

(** What a successful upsert tells about the caller and about the
    database it leaves. *)
Lemma upsert_class_assignments_ok (s : session) (new : class_assignments_row)
      (db db1 : database) :
  upsert_class_assignments s new db = Ok db1 ->
  Sql.is_true (is_admin s db) = true
  /\ users db1 = users db
  /\ classes db1 = classes db
  /\ class_assignments_table_ok (class_assignments db1) = Ok tt
  /\ exists r, In r (class_assignments db1)
               /\ ca_user_id r = ca_user_id new
               /\ ca_class_id r = ca_class_id new.
Proof.
  unfold upsert_class_assignments, upsert.
  rewrite (proj1 (class_assignments_admin_only s db new)).
  destruct (Sql.is_true (is_admin s db)) eqn:Hadmin;
    cbn [guard bind no_constraint]; [|discriminate].
  destruct (find (same_assignment new) (class_assignments db))
    as [old|] eqn:Hfind.
  - destruct (guard _ _) as [[]|]; cbn [bind]; [|discriminate].
    destruct (class_assignments_table_ok _) as [[]|] eqn:Hok; cbn [bind];
      [|discriminate].
    intros [= <-]. simpl. repeat split; auto.
    apply find_some in Hfind as [Hin Hsame].
    exists (merge_assignment old new). split; [|split; reflexivity].
    apply in_map_iff. exists old. rewrite Hsame. auto.
  - destruct (class_assignments_table_ok _) as [[]|] eqn:Hok; cbn [bind];
      [|discriminate].
    destruct (class_assignments_fkeys db new) as [[]|]; cbn [bind];
      [|discriminate].
    intros [= <-]. simpl. repeat split; auto.
    exists new. split; [|split; reflexivity].
    apply in_or_app. right. now left.
Qed.

(** Upserting a pair that is already stored changes nothing and raises
    nothing. *)
Lemma upsert_class_assignments_again (s : session)
      (new : class_assignments_row) (db : database) :
  Sql.is_true (is_admin s db) = true ->
  class_assignments_table_ok (class_assignments db) = Ok tt ->
  (exists r, In r (class_assignments db)
             /\ same_assignment new r = true) ->
  upsert_class_assignments s new db = Ok db.
Proof.
  intros Hadmin Hok (r & Hin & Hsame).
  unfold upsert_class_assignments, upsert.
  destruct (class_assignments_admin_only s db new) as (-> & _).
  rewrite Hadmin. cbn [guard bind no_constraint].
  destruct (find (same_assignment new) (class_assignments db))
    as [old|] eqn:Hfind.
  2:{ apply (find_none _ _ Hfind) in Hin. congruence. }
  apply find_some in Hfind as [Hold Hsame'].
  rewrite (merge_assignment_same old new Hsame').
  destruct (class_assignments_admin_only s db old) as (_ & -> & -> & Hsel).
  rewrite Hadmin, (Hsel Hadmin). cbn [andb guard bind].
  replace (map _ (class_assignments db)) with (class_assignments db).
  - rewrite Hok. cbn [bind]. now rewrite with_class_assignments_id.
  - rewrite <- (map_id (class_assignments db)) at 1.
    apply map_ext_in. intros x Hx.
    destruct (same_assignment new x) eqn:Hs; [|reflexivity].
    symmetry. now apply merge_assignment_same.
Qed.

Lemma is_admin_users (s : session) (db db' : database) :
  users db' = users db -> is_admin s db' = is_admin s db.
Proof.
  intros H. unfold is_admin, get_current_user_role. now rewrite H.
Qed.

Lemma maybeSingle_inv {A} (l : list A) (o : option A) :
  maybeSingle l = Ok o ->
  match o with Some r => l = [r] | None => l = [] end.
Proof.
  destruct l as [|x [|y l]]; simpl; intros [= <-] || discriminate;
    reflexivity.
Qed.

Lemma find_class_admin (s : session) (a : assignment_form) (db : database) :
  Sql.is_true (is_admin s db) = true ->
  find_class s a db = maybeSingle (filter (form_matches a) (classes db)).
Proof.
  intros H. unfold find_class. now rewrite classes_admin_sees_all.
Qed.

Lemma insert_classes_ok (reads : bool) (s : session) (new : classes_row)
      (db db' : database) :
  insert_classes reads s new db = Ok db' ->
  db' = with_classes db (classes db ++ [new])%list.
Proof.
  unfold insert_classes, insert.
  destruct (guard _ _) as [[]|]; cbn [bind no_constraint]; [|discriminate].
  destruct (classes_table_ok _) as [[]|]; cbn [bind]; [|discriminate].
  now intros [= <-].
Qed.

Lemma class_assignments_table_ok_key (l : list class_assignments_row) :
  class_assignments_table_ok l = Ok tt ->
  class_assignments_user_class_key l = true.
Proof.
  unfold class_assignments_table_ok.
  destruct (class_assignments_pkey l); cbn [guard bind]; [|discriminate].
  destruct (class_assignments_user_class_key l); [reflexivity|discriminate].
Qed.

(** The handler run on a database where the class of the form exists once
    and the pair is already stored. *)
Lemma handleClassAssignment_again (s : session) (class_uuid assignment_uuid : uuid)
      (created_at : option text) (userId : uuid) (a : assignment_form)
      (c : classes_row) (db : database) :
  String.eqb (grade a) EmptyString || String.eqb (subject a) EmptyString = false ->
  Sql.is_true (is_admin s db) = true ->
  filter (form_matches a) (classes db) = [c] ->
  class_assignments_table_ok (class_assignments db) = Ok tt ->
  (exists r, In r (class_assignments db)
             /\ ca_user_id r = Some userId /\ ca_class_id r = Some (c_id c)) ->
  handleClassAssignment s class_uuid assignment_uuid created_at userId
                        (Some a) db = (db, None)
  /\ In c (classes db)
  /\ c_grade c = grade a /\ c_subject c = subject a
  /\ List.length (assignments_of userId (c_id c) db) = 1.
Proof.
  intros Hblank Hadmin Hone Hok Hex. split; [|split; [|split; [|split]]].
  - unfold handleClassAssignment.
    rewrite Hblank, (find_class_admin s a db Hadmin), Hone. cbn [maybeSingle].
    rewrite upsert_class_assignments_again; auto.
    destruct Hex as (r & Hin & Hu & Hk). exists r. split; [assumption|].
    apply same_assignment_iff. exists userId, (c_id c). auto.
  - assert (H : In c (filter (form_matches a) (classes db)))
      by (rewrite Hone; now left).
    now apply filter_In in H.
  - assert (H : In c (filter (form_matches a) (classes db)))
      by (rewrite Hone; now left).
    apply filter_In in H as [_ H]. apply andb_prop in H as [H _].
    now apply String.eqb_eq.
  - assert (H : In c (filter (form_matches a) (classes db)))
      by (rewrite Hone; now left).
    apply filter_In in H as [_ H]. apply andb_prop in H as [_ H].
    now apply String.eqb_eq.
  - apply unique_pair_once; [|assumption].
    now apply class_assignments_table_ok_key.
Qed.

(** C8. When "assign this class to this user" has gone through, running
    it again with the same form for the same user reports no error and
    leaves the database exactly as the first run left it, and that
    database holds one ClassAssignment row for the user and the class of
    the form. *)
Theorem class_assignment_idempotent (s : session)
        (class_uuid assignment_uuid class_uuid' assignment_uuid' : uuid)
        (created_at created_at' : option text)
        (userId : uuid) (form : option assignment_form)
        (db db1 : database) :
  handleClassAssignment s class_uuid assignment_uuid created_at
                        userId form db = (db1, None) ->
  handleClassAssignment s class_uuid' assignment_uuid' created_at'
                        userId form db1 = (db1, None)
  /\ exists a c,
       form = Some a
       /\ In c (classes db1)
       /\ c_grade c = grade a /\ c_subject c = subject a
       /\ List.length (assignments_of userId (c_id c) db1) = 1.
Proof.
  intros H. unfold handleClassAssignment in H.
  destruct form as [a|]; [|discriminate].
  destruct (String.eqb (grade a) EmptyString || String.eqb (subject a) EmptyString) eqn:Hblank;
    [discriminate|].
  destruct (find_class s a db) as [[c|]|] eqn:Hfind; [| |discriminate].
  - destruct (upsert_class_assignments s _ db) as [db2|] eqn:Hup;
      [|discriminate].
    injection H as ->.
    apply upsert_class_assignments_ok in Hup
      as (Hadmin & Hus & Hcl & Hok & Hex).
    rewrite (find_class_admin s a db Hadmin) in Hfind.
    apply maybeSingle_inv in Hfind.
    assert (Hadmin1 : Sql.is_true (is_admin s db1) = true)
      by now rewrite (is_admin_users s db db1 Hus).
    rewrite <- Hcl in Hfind.
    destruct (handleClassAssignment_again
                s class_uuid' assignment_uuid' created_at' userId a c db1
                Hblank Hadmin1 Hfind Hok Hex) as (Hrun & Hrest).
    split; [exact Hrun|]. exists a, c. auto.
  - cbn [bind] in H.
    destruct (insert_classes true s _ db) as [db'|] eqn:Hins;
      cbn [bind] in H; [|discriminate].
    destruct (upsert_class_assignments s _ db') as [db2|] eqn:Hup;
      [|discriminate].
    injection H as ->.
    apply insert_classes_ok in Hins. 
    apply upsert_class_assignments_ok in Hup
      as (Hadmin' & Hus & Hcl & Hok & Hex).
    assert (Hadmin : Sql.is_true (is_admin s db) = true).
    { rewrite <- Hadmin'. symmetry. f_equal. apply is_admin_users.
      now subst db'. }
    rewrite (find_class_admin s a db Hadmin) in Hfind.
    apply maybeSingle_inv in Hfind.
    assert (Hadmin1 : Sql.is_true (is_admin s db1) = true)
      by now rewrite (is_admin_users s db' db1 Hus).
    set (c := {| c_id := class_uuid; c_subject := subject a;
                 c_grade := grade a;
                 c_class_label := Some (grade a ++ "-" ++ subject a);
                 c_description := None; c_created_at := created_at |}) in *.
    assert (Hone : filter (form_matches a) (classes db1) = [c]).
    { rewrite Hcl. subst db'. simpl classes. rewrite filter_app, Hfind.
      simpl. unfold form_matches. simpl. now rewrite !String.eqb_refl. }
    destruct (handleClassAssignment_again
                s class_uuid' assignment_uuid' created_at' userId a c db1
                Hblank Hadmin1 Hone Hok Hex) as (Hrun & Hrest).
    split; [exact Hrun|]. exists a, c. auto.
Qed.

Lemma class_assignment_idempotent_witness :
  let form := Some {| grade := "Grade 9"; subject := "Science" |} in
  let db1 := fst (handleClassAssignment (authenticated "A") "c9" "a9" None
                                        "W" form Sample.db) in
  handleClassAssignment (authenticated "A") "c10" "a10" None "W" form db1
    = (db1, None)
  /\ exists a c,
       form = Some a
       /\ In c (classes db1)
       /\ c_grade c = grade a /\ c_subject c = subject a
       /\ List.length (assignments_of "W" (c_id c) db1) = 1.
Proof.
  intros form db1.
  apply (class_assignment_idempotent
           (authenticated "A") "c9" "a9" "c10" "a10" None None "W"
           form Sample.db db1).
  reflexivity.
Defined.


(** For an admin the handler does go through: on a consistent database,
    with a filled form, at most one class for the form, and column
    defaults that produce unused ids. *)

Lemma same_assignment_sym (a b : class_assignments_row) :
  same_assignment a b = same_assignment b a.
Proof.
  destruct (same_assignment b a) eqn:E.
  - apply same_assignment_iff in E as (u & k & ? & ? & ? & ?).
    apply same_assignment_iff. exists u, k. auto.
  - destruct (same_assignment a b) eqn:E'; [|reflexivity].
    apply same_assignment_iff in E' as (u & k & ? & ? & ? & ?).
    assert (same_assignment b a = true)
      by (apply same_assignment_iff; exists u, k; auto).
    congruence.
Qed.

Lemma existsb_false {A} (p : A -> bool) (l : list A) :
  (forall x, In x l -> p x = false) -> existsb p l = false.
Proof.
  intros H. induction l as [|x l IH]; [reflexivity|]. simpl.
  rewrite H by (now left). apply IH. intros y Hy. apply H. now right.
Qed.

Lemma upsert_class_assignments_admin (s : session)
      (new : class_assignments_row) (db : database) :
  Sql.is_true (is_admin s db) = true ->
  class_assignments_table_ok (class_assignments db) = Ok tt ->
  (forall r, In r (class_assignments db) -> ca_id r <> ca_id new) ->
  class_assignments_fkeys db new = Ok tt ->
  exists db1, upsert_class_assignments s new db = Ok db1.
Proof.
  intros Hadmin Hok Hfresh Hfk.
  destruct (find (same_assignment new) (class_assignments db))
    as [old|] eqn:Hfind.
  - exists db. apply upsert_class_assignments_again; auto.
    apply find_some in Hfind. eauto.
  - unfold upsert_class_assignments, upsert.
    rewrite (proj1 (class_assignments_admin_only s db new)), Hadmin, Hfind.
    cbn [guard bind no_constraint].
    unfold class_assignments_table_ok in *.
    unfold class_assignments_pkey, class_assignments_user_class_key in *.
    rewrite key_unique_app, pairwise_distinct_app.
    destruct (key_unique ca_id (class_assignments db));
      cbn [guard bind] in Hok; [|discriminate].
    destruct (pairwise_distinct same_assignment (class_assignments db));
      [|discriminate].
    rewrite !existsb_false; [cbn; rewrite Hfk; cbn; eauto| |].
    + intros x Hx. rewrite same_assignment_sym.
      apply (find_none _ _ Hfind x Hx).
    + intros x Hx. apply String.eqb_neq. auto.
Qed.

Lemma insert_classes_admin (s : session) (new : classes_row) (db : database) :
  Sql.is_true (is_admin s db) = true ->
  classes_pkey (classes db) = true ->
  (forall c, In c (classes db) -> c_id c <> c_id new) ->
  insert_classes true s new db
  = Ok (with_classes db (classes db ++ [new])%list).
Proof.
  intros Hadmin Hpk Hfresh. unfold insert_classes, insert.
  replace (passes_check INSERT classes_policies s db new) with true
    by (eval_policies; now rewrite Hadmin).
  replace (may_read classes_policies true s db new) with true
    by (unfold may_read; eval_policies; rewrite Hadmin;
        now rewrite orb_true_r).
  cbn [andb guard bind no_constraint].
  unfold classes_table_ok, classes_pkey in *.
  rewrite key_unique_app, Hpk, existsb_false; [reflexivity|].
  intros x Hx. apply String.eqb_neq. auto.
Qed.

Lemma handleClassAssignment_admin (s : session)
      (class_uuid assignment_uuid : uuid) (created_at : option text)
      (userId : uuid) (a : assignment_form) (db : database) :
  consistent db ->
  get_current_user_role s db = Some "admin" ->
  grade a <> EmptyString -> subject a <> EmptyString ->
  List.length (filter (form_matches a) (classes db)) <= 1 ->
  (forall c, In c (classes db) -> c_id c <> class_uuid) ->
  (forall r, In r (class_assignments db) -> ca_id r <> assignment_uuid) ->
  known userId db = true ->
  exists db1,
    handleClassAssignment s class_uuid assignment_uuid created_at userId
                          (Some a) db = (db1, None).
Proof.
  intros Hcons Hadmin Hg Hs Hone Hc Hr Hknown. apply is_admin_true in Hadmin.
  assert (Hok : class_assignments_table_ok (class_assignments db) = Ok tt).
  { unfold class_assignments_table_ok.
    now rewrite (cons_assignments_pkey Hcons), (cons_assignments_key Hcons). }
  unfold handleClassAssignment.
  apply String.eqb_neq in Hg, Hs. rewrite Hg, Hs. cbn [orb].
  rewrite (find_class_admin s a db Hadmin).
  destruct (filter (form_matches a) (classes db)) as [|c [|c' l]] eqn:Hf;
    cbn [maybeSingle bind].
  - rewrite insert_classes_admin; auto; [|apply (cons_classes_pkey Hcons)].
    cbn [bind].
    match goal with
    | |- context [upsert_class_assignments s ?new ?db'] =>
        destruct (upsert_class_assignments_admin s new db')
          as (db1 & ->); eauto
    end.
    unfold class_assignments_fkeys, refers, known in *.
    cbn [classes with_classes users ca_class_id ca_user_id].
    rewrite existsb_app, Hknown. cbn. rewrite String.eqb_refl.
    now rewrite orb_true_r.
  - destruct (upsert_class_assignments_admin s
                {| ca_id := assignment_uuid; ca_user_id := Some userId;
                   ca_class_id := Some (c_id c) |} db)
      as (db1 & ->); eauto.
    assert (Hin : In c (filter (form_matches a) (classes db)))
      by (rewrite Hf; now left).
    apply filter_In in Hin as [Hin _].
    unfold class_assignments_fkeys, refers, known in *.
    cbn [ca_class_id ca_user_id]. rewrite Hknown.
    replace (existsb _ (classes db)) with true; [reflexivity|].
    symmetry. apply existsb_exists. exists c. split; [assumption|].
    apply String.eqb_refl.
  - simpl in Hone. lia.
Qed.


(** * Further properties *)

(** ** Who reads what *)

Lemma role_of_nobody (s : session) (db : database) :
  auth_uid s = None -> get_current_user_role s db = None.
Proof.
  intros H. unfold get_current_user_role. rewrite H.
  replace (filter _ (users db)) with (@nil users_row); [reflexivity|].
  symmetry. induction (users db) as [|u us IH]; [reflexivity|]. exact IH.
Qed.

Lemma filter_nothing {A} (p : A -> bool) (l : list A) :
  (forall x, In x l -> p x = false) -> filter p l = [].
Proof.
  intros H. induction l as [|x l IH]; [reflexivity|]. simpl.
  rewrite H by (now left). apply IH. intros y Hy. apply H. now right.
Qed.

Lemma eq3_null (a : option text) : Sql.is_true (Sql.eq3 a None) = false.
Proof. destruct a; reflexivity. Qed.

(** A request without a signed-in identity (the public key of the API)
    reads no row of any table, and so nothing through the views. *)
Theorem anon_reads_nothing (db : database) :
  as_seen_by anon db
  = {| users := []; classes := []; class_assignments := [];
       syllabus_entries := []; announcements := [] |}
  /\ select_from pending_volunteers anon db = []
  /\ select_from volunteer_dashboard anon db = [].
Proof.
  assert (Hadmin : is_admin anon db = None)
    by (unfold is_admin; now rewrite role_of_nobody).
  assert (Hseen : as_seen_by anon db
                  = {| users := []; classes := []; class_assignments := [];
                       syllabus_entries := []; announcements := [] |}).
  { unfold as_seen_by, visible.
    f_equal; apply filter_nothing; intros r _; eval_policies;
      rewrite ?is_true_and3, ?is_true_or3, ?Hadmin; cbn [auth_uid anon];
      rewrite ?eq3_null; reflexivity. }
  split; [exact Hseen|].
  unfold select_from. cbn [security_invoker pending_volunteers
                           volunteer_dashboard].
  rewrite Hseen. split; reflexivity.
Qed.

Lemma users_visible_own (s : session) (db : database) (u : users_row) :
  non_admin s db ->
  (In u (visible users_policies s db (users db))
   <-> In u (users db) /\ auth_uid s = Some (u_id u)).
Proof.
  intros Hrole. apply non_admin_false in Hrole. unfold visible.
  rewrite filter_In, users_select, Hrole, orb_false_r.
  now rewrite own_row.
Qed.

(** A caller who is not an admin reads, of [users], their own row and no
    other, and of [class_assignments] their own assignments and no
    other; an admin reads both tables whole. *)
Theorem own_rows_or_all (s : session) (db : database) :
  (non_admin s db ->
   (forall u, In u (visible users_policies s db (users db))
              <-> In u (users db) /\ auth_uid s = Some (u_id u))
   /\ (forall ca, In ca (visible class_assignments_policies s db
                                 (class_assignments db))
                  <-> In ca (class_assignments db)
                      /\ exists me, auth_uid s = Some me
                                    /\ ca_user_id ca = Some me))
  /\ (get_current_user_role s db = Some "admin" ->
      visible users_policies s db (users db) = users db
      /\ visible class_assignments_policies s db (class_assignments db)
         = class_assignments db).
Proof.
  split.
  - intros Hrole. split; [intros u; now apply users_visible_own|].
    apply non_admin_false in Hrole. unfold visible.
    intros ca. rewrite filter_In. eval_policies.
    rewrite is_true_or3, Hrole, !orb_false_r, is_true_eq3.
    split; intros [Hin (me & H1 & H2)]; eauto.
  - intros Hadmin. apply is_admin_true in Hadmin. unfold visible.
    split; apply forallb_filter_id, forallb_forall; intros r _.
    + rewrite users_select, Hadmin. apply orb_true_r.
    + now apply class_assignments_admin_only.
Qed.

Lemma own_rows_or_all_witness :
  (forall u, In u (visible users_policies (authenticated "V") Sample.db
                           (users Sample.db))
             <-> In u (users Sample.db)
                 /\ auth_uid (authenticated "V") = Some (u_id u))
  /\ visible users_policies (authenticated "A") Sample.db (users Sample.db)
     = users Sample.db.
Proof.
  split.
  - apply (proj1 (own_rows_or_all (authenticated "V") Sample.db)).
    unfold non_admin. vm_compute. discriminate.
  - apply (proj2 (own_rows_or_all (authenticated "A") Sample.db)).
    reflexivity.
Defined.

(** A signed-in caller who is not an admin reads an announcement exactly
    when it is global (no class) or belongs to a class the caller is
    assigned to. *)
Theorem announcements_global_or_assigned (C : uuid) (db : database)
        (a : announcements_row) :
  non_admin (authenticated C) db ->
  (In a (visible announcements_policies (authenticated C) db
                 (announcements db))
   <-> In a (announcements db)
       /\ (an_class_id a = None
           \/ exists K, an_class_id a = Some K /\ has_assignment C K db)).
Proof.
  intros Hrole. apply non_admin_false in Hrole. unfold visible.
  rewrite filter_In, announcements_select, Hrole, orb_false_r.
  destruct (an_class_id a) as [K|]; simpl.
  - rewrite assigned_iff. split.
    + intros [Hin H]. split; [assumption|]. right. eauto.
    + intros [Hin [H|(K' & [= <-] & H)]]; [discriminate|auto].
  - split; [intros [Hin _]|intros [Hin _]]; auto.
Qed.

Lemma announcements_global_or_assigned_witness :
  In (Sample.notice "n2" "A" None)
     (visible announcements_policies (authenticated "P") Sample.db
              (announcements Sample.db)).
Proof.
  apply (announcements_global_or_assigned
           "P" Sample.db (Sample.notice "n2" "A" None)).
  - unfold non_admin. vm_compute. discriminate.
  - split; [simpl; auto | left; reflexivity].
Defined.

(** An admin passes every policy check of [classes],
    [class_assignments], [syllabus_entries] and [announcements], for
    every command and every row. *)
Theorem admin_passes_everywhere (s : session) (db : database) (c : command) :
  get_current_user_role s db = Some "admin" ->
  (forall r, passes_using c classes_policies s db r = true
             /\ passes_check c classes_policies s db r = true)
  /\ (forall r, passes_using c class_assignments_policies s db r = true
                /\ passes_check c class_assignments_policies s db r = true)
  /\ (forall r, passes_using c syllabus_entries_policies s db r = true
                /\ passes_check c syllabus_entries_policies s db r = true)
  /\ (forall r, passes_using c announcements_policies s db r = true
                /\ passes_check c announcements_policies s db r = true).
Proof.
  intros Hadmin. apply is_admin_true in Hadmin.
  repeat split; destruct c; eval_policies; rewrite Hadmin;
    rewrite ?orb_true_r; reflexivity.
Qed.

Lemma admin_passes_everywhere_witness :
  passes_check INSERT classes_policies (authenticated "A") Sample.db
               (Sample.class "M" "Grade 9" "English") = true.
Proof.
  apply (proj1 (admin_passes_everywhere
                  (authenticated "A") Sample.db INSERT eq_refl)).
Defined.

(** ** What the views show to a caller who is not an admin *)

(** Through the views a caller who is not an admin meets nobody but
    themself: [pending_volunteers] holds at most their own row, and every
    row of [volunteer_dashboard] is an entry they taught themself, also
    when the class has entries of other volunteers that the caller reads
    in [syllabus_entries]. *)
Theorem views_show_only_self (s : session) (db : database) :
  non_admin s db ->
  (forall r, In r (select_from pending_volunteers s db) ->
             auth_uid s = Some (pv_id r))
  /\ (forall r, In r (select_from volunteer_dashboard s db) ->
                vd_volunteer_id r = auth_uid s).
Proof.
  intros Hrole.
  assert (Husers := fun u => users_visible_own s db u Hrole).
  split; intros r Hr; unfold select_from in Hr; cbn in Hr.
  - apply in_map_iff in Hr as (u & <- & Hu).
    apply filter_In in Hu as [Hu _].
    destruct (proj1 (Husers u) Hu) as [_ Hme]. exact Hme.
  - apply in_flat_map in Hr as (se & Hse & Hr).
    apply in_flat_map in Hr as (u & Hu & Hr).
    destruct (Sql.is_true (Sql.eq3 (se_volunteer_id se) (Some (u_id u))))
      eqn:Hjoin; [|destruct Hr].
    apply in_flat_map in Hr as (c & Hc & Hr).
    destruct (_ && _); [|destruct Hr].
    destruct Hr as [<-|[]]. simpl.
    apply is_true_eq3 in Hjoin as (x & Hx & Hx').
    destruct (proj1 (Husers u) Hu) as [_ Hme]. congruence.
Qed.

(** The assigned volunteer "W" of class "K" reads the entry of "V" in the
    table, yet the dashboard view shows them none of it. *)
Lemma views_show_only_self_witness :
  let db := with_class_assignments Sample.db
              (class_assignments Sample.db
                 ++ [Sample.assignment "a3" "W" "K"])%list in
  In (Sample.entry "E" "K" "V" false)
     (visible syllabus_entries_policies (authenticated "W") db
              (syllabus_entries db))
  /\ forall r, In r (select_from volunteer_dashboard (authenticated "W") db)
               -> vd_volunteer_id r = Some "W".
Proof.
  intros db. split; [vm_compute; auto|].
  assert (Hrole : non_admin (authenticated "W") db)
    by (unfold non_admin; vm_compute; discriminate).
  exact (proj2 (views_show_only_self (authenticated "W") db Hrole)).
Defined.

(** ** Who writes what *)

(** An UPDATE of [users] reaches the caller's own row and no other:
    whoever the caller is, an admin included, every other row comes out
    as it went in. *)
Theorem users_update_only_own_row (s : session) (db db' : database)
        (reads : bool) (where_ : users_row -> bool)
        (set : users_row -> users_row) :
  update_users reads s where_ set db = Ok db' ->
  Forall2 (fun old new => auth_uid s <> Some (u_id old) -> new = old)
          (users db) (users db').
Proof.
  unfold update_users.
  destruct (update _ _ _ _ _ _ _ _ _ _) as [rows'|] eqn:Hup;
    cbn [bind]; [|discriminate].
  intros [= <-]. simpl users.
  apply update_ok in Hup as [-> Hpass].
  apply Forall2_map_self. intros u Hu Hother.
  destruct (update_target _ _ _ _ _ u) eqn:Ht; [|reflexivity].
  destruct (Hpass u Hu Ht) as [Husing _].
  rewrite users_update_using in Husing. apply own_row in Husing.
  contradiction.
Qed.

Lemma users_update_only_own_row_witness :
  Forall2 (fun old new => Some "A" <> Some (u_id old) -> new = old)
          (users Sample.db) (users Sample.db).
Proof.
  apply (users_update_only_own_row
           (authenticated "A") Sample.db Sample.db true
           (fun u => String.eqb (u_id u) "V") (set_role "admin")).
  reflexivity.
Defined.

Lemma with_users_id (db : database) : with_users db (users db) = db.
Proof. destruct db. reflexivity. Qed.

(** The role selector of the admin pages, used on somebody else: the
    request changes no row and raises no error, so the page reports
    success and shows the new role while the database keeps the old one. *)
Theorem handleRoleUpdate_on_another_user (s : session) (userId : uuid)
        (newRole : text) (db : database) (shown : list UserWithClasses) :
  users_pkey (users db) = true ->
  auth_uid s <> Some userId ->
  handleRoleUpdate s userId newRole db shown
  = (db,
     map (fun user =>
            if String.eqb (u_id (uwc_user user)) userId
            then {| uwc_user := set_role newRole (uwc_user user);
                    assignedClasses := assignedClasses user |}
            else user) shown,
     Success).
Proof.
  intros Hpk Hother. unfold handleRoleUpdate.
  assert (Hnone : forall u, update_target users_policies true s db
                    (fun u => String.eqb (u_id u) userId) u = false).
  { intros u. unfold update_target. rewrite users_update_using.
    destruct (String.eqb_spec (u_id u) userId) as [<-|]; [|reflexivity].
    destruct (Sql.is_true _) eqn:E; [|reflexivity].
    apply own_row in E. contradiction. }
  assert (Hup : update_users true s (fun u => String.eqb (u_id u) userId)
                             (set_role newRole) db = Ok db).
  { unfold update_users, update.
    rewrite (filter_nothing _ _ (fun u _ => Hnone u)).
    cbn [map forallb guard bind rows_ok].
    rewrite (map_ext _ (fun u => u)), map_id
      by (intros u; now rewrite Hnone).
    unfold users_table_ok. rewrite Hpk. cbn [guard bind].
    now rewrite with_users_id. }
  now rewrite Hup.
Qed.

Lemma handleRoleUpdate_on_another_user_witness :
  let shown := [{| uwc_user := Sample.user "V" "v@x.org" "volunteer";
                   assignedClasses := [] |}] in
  handleRoleUpdate (authenticated "A") "V" "admin" Sample.db shown
  = (Sample.db,
     [{| uwc_user := Sample.user "V" "v@x.org" "admin";
         assignedClasses := [] |}],
     Success).
Proof.
  intros shown.
  apply (handleRoleUpdate_on_another_user
           (authenticated "A") "V" "admin" Sample.db shown).
  - reflexivity.
  - discriminate.
Defined.

(** Saving the profile form: for a signed-in user whose row is stored,
    the request succeeds whatever the two fields hold, rewrites the name
    and the programme of that row and nothing else, and leaves every
    role as it was. *)
Theorem handleSaveProfile_own_row (id : uuid) (shown E : users_row)
        (name programme : option text) (db : database) :
  users_pkey (users db) = true ->
  In E (users db) ->
  u_id E = id ->
  valid_user_roles E = true ->
  let db' := with_users db
               (map (fun u => if String.eqb (u_id u) id
                              then set_profile name (or_null programme) u
                              else u)
                    (users db)) in
  handleSaveProfile (Some id) (Some shown) name programme db
  = (db', Some (set_profile name (or_null programme) shown), Success)
  /\ map u_role (users db') = map u_role (users db).
Proof.
  intros Hpk HE Hid Hvalid db'. subst id. split.
  - unfold handleSaveProfile, update_users.
    rewrite (update_by_key users_row u_id "users" users_policies
               users_row_ok (UniqueViolation "users_pkey")
               users_table_ok (fun _ => eq_refl)
               true (authenticated (u_id E)) db E
               (set_profile name (or_null programme)) (users db));
      auto.
    + rewrite users_update_using. now apply own_row.
    + unfold may_read. rewrite users_select.
      now rewrite (proj2 (own_row (authenticated (u_id E)) E)).
    + rewrite users_update_check.
      rewrite (own_stored_role_of_row (authenticated (u_id E)) db E)
        by auto.
      cbn [set_profile u_id u_role]. rewrite is_true_eq3_Some.
      rewrite String.eqb_refl.
      now rewrite (proj2 (own_row (authenticated (u_id E)) E)).
    + unfold may_read. rewrite users_select. cbn [set_profile u_id].
      now rewrite (proj2 (own_row (authenticated (u_id E)) E)).
    + unfold users_row_ok, valid_user_roles in *.
      cbn [set_profile u_role]. now rewrite Hvalid.
  - subst db'. simpl users. rewrite map_map. apply map_ext.
    intros u. now destruct (String.eqb (u_id u) (u_id E)).
Qed.

Lemma handleSaveProfile_own_row_witness :
  handleSaveProfile (Some "P") (Some (Sample.user "P" "p@x.org" "viewer"))
                    (Some "Priya") (Some EmptyString) Sample.db
  = (with_users Sample.db
       (map (fun u => if String.eqb (u_id u) "P"
                      then set_profile (Some "Priya") None u else u)
            (users Sample.db)),
     Some (set_profile (Some "Priya") None
                       (Sample.user "P" "p@x.org" "viewer")),
     Success).
Proof.
  apply (handleSaveProfile_own_row
           "P" (Sample.user "P" "p@x.org" "viewer")
           (Sample.user "P" "p@x.org" "viewer")
           (Some "Priya") (Some EmptyString) Sample.db);
    try reflexivity.
  simpl. tauto.
Defined.

(** Without a signed-in user, or before the page holds the profile, the
    form sends nothing and says nothing. *)
Lemma handleSaveProfile_silent (user : option uuid)
      (profile : option users_row) (name programme : option text)
      (db : database) :
  user = None \/ profile = None ->
  handleSaveProfile user profile name programme db = (db, profile, Silent).
Proof.
  unfold handleSaveProfile.
  destruct profile, user; intros [H|H]; try discriminate; reflexivity.
Qed.

(** A DELETE on [syllabus_entries] by a caller who is not an admin
    removes the selected entries that name the caller and belong to a
    class the caller is assigned to, and no other entry: the FOR ALL
    policy of the volunteers covers DELETE as well. *)
Theorem syllabus_delete_own_entries (V : uuid) (db : database)
        (reads : bool) (where_ : syllabus_entries_row -> bool)
        (se : syllabus_entries_row) :
  non_admin (authenticated V) db ->
  (In se (syllabus_entries
            (delete_syllabus_entries reads (authenticated V) where_ db))
   <-> In se (syllabus_entries db)
       /\ ~ (where_ se = true /\ own_and_assigned V db se)).
Proof.
  intros Hrole. apply non_admin_false in Hrole.
  unfold delete_syllabus_entries, with_syllabus_entries, delete.
  cbn [syllabus_entries].
  rewrite filter_In, negb_true_iff, <- own_and_assigned_iff.
  replace (passes_using DELETE syllabus_entries_policies
                        (authenticated V) db se)
    with (Sql.is_true (Sql.eq3 (se_volunteer_id se) (Some V))
          && Sql.is_true (assigned (authenticated V) db (se_class_id se)))
    by (eval_policies; rewrite !is_true_and3, Hrole, orb_false_r;
        reflexivity).
  destruct (Sql.is_true (Sql.eq3 (se_volunteer_id se) (Some V))
            && Sql.is_true (assigned (authenticated V) db (se_class_id se)))
    eqn:Hown.
  - rewrite syllabus_entries_write_may_read by assumption.
    rewrite !andb_true_r. destruct (where_ se); intuition congruence.
  - rewrite andb_false_r. simpl. intuition congruence.
Qed.

Lemma syllabus_delete_own_entries_witness :
  ~ In (Sample.entry "E" "K" "V" false)
       (syllabus_entries
          (delete_syllabus_entries true (authenticated "V")
                                   (fun _ => true) Sample.db))
  /\ In (Sample.entry "F" "L" "W" true)
        (syllabus_entries
           (delete_syllabus_entries true (authenticated "V")
                                    (fun _ => true) Sample.db)).
Proof.
  assert (Hrole : non_admin (authenticated "V") Sample.db)
    by (unfold non_admin; vm_compute; discriminate).
  split.
  - intros H.
    apply (syllabus_delete_own_entries
             "V" Sample.db true (fun _ => true) _ Hrole) in H as [_ H].
    apply H. split; [reflexivity|]. split; [reflexivity|].
    exists "K". split; [reflexivity|].
    exists (Sample.assignment "a1" "V" "K"). simpl. tauto.
  - apply (syllabus_delete_own_entries
             "V" Sample.db true (fun _ => true) _ Hrole).
    split; [simpl; tauto|]. intros [_ [Hv _]]. discriminate.
Defined.

(** ** Assigning and removing classes, continued *)

(** For a caller who is not an admin the assignment handler always ends
    on an error and leaves the database as it found it: no class is
    created and no assignment stored. *)
Theorem handleClassAssignment_non_admin (s : session)
        (class_uuid assignment_uuid : uuid) (created_at : option text)
        (userId : uuid) (form : option assignment_form) (db : database) :
  non_admin s db ->
  exists e, handleClassAssignment s class_uuid assignment_uuid created_at
                                  userId form db = (db, Some e).
Proof.
  intros Hrole. apply non_admin_false in Hrole.
  unfold handleClassAssignment.
  destruct form as [a|]; [|eauto].
  destruct (_ || _); [eauto|].
  destruct (find_class s a db) as [[c|]|e]; [| |eauto].
  - unfold upsert_class_assignments, upsert.
    rewrite (proj1 (class_assignments_admin_only s db _)), Hrole.
    cbn [guard bind]. eauto.
  - unfold insert_classes, insert.
    replace (passes_check INSERT classes_policies s db _) with false
      by (eval_policies; now rewrite Hrole).
    cbn [andb guard bind]. eauto.
Qed.

Lemma handleClassAssignment_non_admin_witness :
  exists e,
    handleClassAssignment (authenticated "V") "c9" "a9" None "V"
      (Some {| grade := "Grade 8"; subject := "Hindi" |}) Sample.db
    = (Sample.db, Some e).
Proof.
  apply (handleClassAssignment_non_admin (authenticated "V")).
  unfold non_admin. vm_compute. discriminate.
Defined.

Lemma sample_consistent : consistent Sample.db.
Proof. constructor; reflexivity. Qed.

(** The rows an admin's removal request leaves. *)
Lemma admin_removal_rows (s : session) (userId classId : uuid)
      (db : database) (ca : class_assignments_row) :
  get_current_user_role s db = Some "admin" ->
  (In ca (class_assignments
            (delete_class_assignments true s (names_pair userId classId) db))
   <-> In ca (class_assignments db)
       /\ ~ (ca_user_id ca = Some userId /\ ca_class_id ca = Some classId)).
Proof.
  intros Hadmin. apply is_admin_true in Hadmin.
  unfold delete_class_assignments, with_class_assignments, delete.
  cbn [class_assignments]. rewrite filter_In, negb_true_iff.
  replace (passes_using DELETE class_assignments_policies s db ca)
    with true by (eval_policies; now rewrite Hadmin).
  unfold may_read.
  rewrite (proj2 (proj2 (proj2 (class_assignments_admin_only s db ca)))
                 Hadmin), !andb_true_r.
  rewrite <- relates_iff, is_true_and3. unfold names_pair.
  destruct (_ && _); intuition congruence.
Qed.

(** Removing an assignment.  For an admin the pair is gone afterwards and
    every other assignment stays; for a caller who is not an admin no row
    is removed.  In both cases the request raises nothing, so the page
    reports success and drops the class from the copy it shows. *)
Theorem handleRemoveAssignment_effect (s : session) (userId classId : uuid)
        (db : database) (volunteers : list UserWithClasses) :
  let '(db', _, said) :=
    handleRemoveAssignment s userId classId db volunteers in
  said = Success
  /\ (get_current_user_role s db = Some "admin" ->
      ~ has_assignment userId classId db'
      /\ forall ca, In ca (class_assignments db')
                    <-> In ca (class_assignments db)
                        /\ ~ (ca_user_id ca = Some userId
                              /\ ca_class_id ca = Some classId))
  /\ (non_admin s db -> db' = db).
Proof.
  unfold handleRemoveAssignment. split; [reflexivity|]. split.
  - intros Hadmin.
    split; [|intros ca; now apply admin_removal_rows].
    intros (ca & Hin & Hu & Hk).
    apply (admin_removal_rows s userId classId db ca Hadmin) in Hin
      as [_ Hin].
    auto.
  - intros Hrole. apply non_admin_false in Hrole.
    unfold delete_class_assignments, delete.
    rewrite forallb_filter_id; [apply with_class_assignments_id|].
    apply forallb_forall. intros ca _.
    replace (passes_using DELETE class_assignments_policies s db ca)
      with false by (eval_policies; now rewrite Hrole).
    now rewrite andb_false_r.
Qed.

Lemma handleRemoveAssignment_effect_witness :
  ~ has_assignment "V" "K"
      (fst (fst (handleRemoveAssignment (authenticated "A") "V" "K"
                                        Sample.db []))).
Proof.
  pose proof (handleRemoveAssignment_effect
                (authenticated "A") "V" "K" Sample.db []) as H.
  destruct (handleRemoveAssignment (authenticated "A") "V" "K" Sample.db [])
    as [[db' shown] said].
  destruct H as (_ & H & _). exact (proj1 (H eq_refl)).
Defined.

(** ** Updating announcements *)

(** An UPDATE of [announcements] by a caller who is not an admin rewrites
    announcements the caller wrote and no other, and cannot hand an
    announcement over to another author. *)
Theorem announcements_update_own_only (s : session) (db db' : database)
        (reads : bool) (where_ : announcements_row -> bool)
        (set : announcements_row -> announcements_row) :
  non_admin s db ->
  update_announcements reads s where_ set db = Ok db' ->
  Forall2 (fun old new =>
             an_author_id new = an_author_id old
             /\ (an_author_id old <> auth_uid s \/ auth_uid s = None
                 -> new = old))
          (announcements db) (announcements db').
Proof.
  intros Hrole. apply non_admin_false in Hrole.
  unfold update_announcements.
  destruct (update _ _ _ _ _ _ _ _ _ _) as [rows'|] eqn:Hup;
    cbn [bind]; [|discriminate].
  intros [= <-]. cbn [announcements with_announcements].
  apply update_ok in Hup as [-> Hpass].
  apply Forall2_map_self. intros a Ha.
  destruct (update_target _ _ _ _ _ a) eqn:Ht; [|auto].
  destruct (Hpass a Ha Ht) as [Husing Hcheck].
  assert (Hpol : forall r,
            passes_using UPDATE announcements_policies s db r
            = Sql.is_true (Sql.eq3 (an_author_id r) (auth_uid s))
            /\ passes_check UPDATE announcements_policies s db r
               = Sql.is_true (Sql.eq3 (an_author_id r) (auth_uid s)))
    by (intros r; split; eval_policies; now rewrite Hrole, orb_false_r).
  rewrite (proj1 (Hpol a)) in Husing. rewrite (proj2 (Hpol (set a))) in Hcheck.
  apply is_true_eq3 in Husing as (x & Hx & Hs).
  apply is_true_eq3 in Hcheck as (y & Hy & Hs').
  split; [congruence|]. intros [H|H]; congruence.
Qed.

Lemma announcements_update_own_only_witness :
  exists db',
    update_announcements true (authenticated "V") (fun _ => true)
                         (fun a => Sample.notice (an_id a) "V" None)
                         Sample.db = Ok db'
    /\ Forall2 (fun old new =>
                  an_author_id new = an_author_id old
                  /\ (an_author_id old <> Some "V" \/ Some "V" = None
                      -> new = old))
               (announcements Sample.db) (announcements db').
Proof.
  eexists. split; [reflexivity|].
  apply (announcements_update_own_only
           (authenticated "V") Sample.db _ true (fun _ => true)
           (fun a => Sample.notice (an_id a) "V" None)).
  - unfold non_admin. vm_compute. discriminate.
  - reflexivity.
Defined.

(** ** promote_user and the provisioning trigger, continued *)

Lemma promote_user_ok (s : session) (target : uuid)
      (new_role : option text) (db db' : database) :
  promote_user s target new_role db = Ok db' ->
  (exists r, new_role = Some r /\ In r roles
             /\ db' = with_users db (promoted target r (users db)))
  \/ (new_role = None /\ db' = db).
Proof.
  intros H. destruct new_role as [r|].
  - left. exists r. split; [reflexivity|].
    destruct (existsb (String.eqb r) roles) eqn:Hr.
    + apply role_in_enum in Hr. split; [assumption|].
      rewrite promote_user_valid in H by assumption. now injection H.
    + unfold promote_user in H. cbn [Sql.in3 not3] in H. fold roles in H.
      rewrite Hr in H. discriminate.
  - right. split; [reflexivity|]. unfold promote_user in H.
    cbn [Sql.in3 not3 Sql.is_true] in H.
    destruct (existsb (fun u => String.eqb (u_id u) target) (users db));
      cbn [negb guard bind] in H; [discriminate|].
    now injection H.
Qed.

Lemma Forall2_same {A} (R : A -> A -> Prop) (l : list A) :
  (forall x, R x x) -> Forall2 R l l.
Proof. intros H. induction l; constructor; auto. Qed.

Lemma promoted_ids (target : uuid) (r : text) (us : list users_row) :
  map u_id (promoted target r us) = map u_id us.
Proof.
  unfold promoted. rewrite map_map. apply map_ext.
  intros u. now destruct (String.eqb (u_id u) target).
Qed.

Lemma key_unique_ids {row} (key : row -> uuid) (l l' : list row) :
  map key l' = map key l -> key_unique key l' = key_unique key l.
Proof.
  unfold key_unique. revert l'.
  induction l as [|x l IH]; intros [|y l'] H; try discriminate;
    [reflexivity|].
  simpl in *. injection H as Hxy Hl. rewrite (IH l' Hl). f_equal. f_equal.
  clear IH. revert l' Hl.
  induction l as [|a l IH]; intros [|b l'] Hl; try discriminate;
    [reflexivity|].
  simpl in *. injection Hl as Hab Hl. unfold same_key at 1 3.
  now rewrite Hxy, Hab, (IH l' Hl).
Qed.

(** A successful [promote_user] rewrites the role of the target's row
    and nothing else: the ids stay, the rows of the other users stay,
    the other tables stay, an unknown target changes nothing at all, and
    the keys and the role constraint still hold. *)
Theorem promote_user_touches_only_target (s : session) (target : uuid)
        (new_role : option text) (db db' : database) :
  promote_user s target new_role db = Ok db' ->
  map u_id (users db') = map u_id (users db)
  /\ Forall2 (fun old new => u_id old <> target -> new = old)
             (users db) (users db')
  /\ (classes db', class_assignments db', syllabus_entries db',
      announcements db')
     = (classes db, class_assignments db, syllabus_entries db,
        announcements db)
  /\ (known target db = false -> db' = db)
  /\ (consistent db -> consistent db').
Proof.
  intros H. apply promote_user_ok in H as [(r & _ & Hr & ->)|[_ ->]].
  2:{ split; [reflexivity|]. split; [apply Forall2_same; auto|].
      split; [reflexivity|]. split; auto. }
  simpl.
  split; [apply promoted_ids|]. split; [|split; [reflexivity|split]].
  - apply Forall2_map_self. intros u _ Hne.
    now destruct (String.eqb_spec (u_id u) target).
  - intros Hk. transitivity (with_users db (users db));
      [|apply with_users_id].
    f_equal. unfold promoted.
    transitivity (map (fun u => u) (users db)); [|apply map_id].
    apply map_ext_in. intros u Hu.
    destruct (String.eqb (u_id u) target) eqn:E; [|reflexivity].
    unfold known in Hk.
    assert (existsb (fun u => String.eqb (u_id u) target) (users db) = true)
      by (apply existsb_exists; eauto).
    congruence.
  - intros Hc. destruct Hc. constructor; simpl; try assumption.
    + unfold users_pkey in *.
      now rewrite (key_unique_ids u_id (users db)) by apply promoted_ids.
    + apply forallb_forall. intros u Hu. unfold promoted in Hu.
      apply in_map_iff in Hu as (v & <- & Hv).
      destruct (String.eqb (u_id v) target).
      * unfold valid_user_roles. simpl. fold roles.
        now apply role_in_enum.
      * rewrite forallb_forall in cons_users_roles0. auto.
Qed.

Lemma promote_user_touches_only_target_witness :
  promote_user anon "P" (Some "admin") Sample.db
  = Ok (with_users Sample.db (promoted "P" "admin" (users Sample.db)))
  /\ map u_role (promoted "P" "admin" (users Sample.db))
     <> map u_role (users Sample.db)
  /\ map u_id (promoted "P" "admin" (users Sample.db))
     = map u_id (users Sample.db)
  /\ Forall2 (fun old new => u_id old <> "P" -> new = old)
             (users Sample.db)
             (promoted "P" "admin" (users Sample.db))
  /\ consistent
       (with_users Sample.db (promoted "P" "admin" (users Sample.db))).
Proof.
  assert (H : promote_user anon "P" (Some "admin") Sample.db
              = Ok (with_users Sample.db
                               (promoted "P" "admin" (users Sample.db))))
    by reflexivity.
  destruct (promote_user_touches_only_target anon "P" (Some "admin")
              Sample.db _ H) as (Hids & Hrows & _ & _ & Hc).
  split; [exact H|]. split; [vm_compute; discriminate|].
  split; [exact Hids|]. split; [exact Hrows|].
  exact (Hc sample_consistent).
Defined.

(** Two promotions of the same user in a row amount to the last one. *)
Theorem promote_user_last_wins (s s' : session) (target : uuid)
        (r1 r2 : text) (db : database) :
  In r1 roles -> In r2 roles ->
  (db1 <- promote_user s target (Some r1) db ;;
   promote_user s' target (Some r2) db1)
  = promote_user s' target (Some r2) db.
Proof.
  intros H1 H2. rewrite !promote_user_valid by assumption. cbn [bind].
  rewrite promote_user_valid by assumption. simpl. f_equal.
  unfold with_users. simpl. f_equal.
  unfold promoted. rewrite map_map. apply map_ext. intros u.
  destruct (String.eqb (u_id u) target) eqn:E; simpl; rewrite E;
    reflexivity.
Qed.

Lemma promote_user_last_wins_witness :
  (db1 <- promote_user anon "P" (Some "admin") Sample.db ;;
   promote_user anon "P" (Some "volunteer") db1)
  = promote_user anon "P" (Some "volunteer") Sample.db.
Proof.
  apply (promote_user_last_wins anon anon "P" "admin" "volunteer" Sample.db);
    unfold roles; simpl; auto.
Defined.

Lemma handle_new_user_result (created_at : option text)
      (new : auth_users_row) (db : database) :
  handle_new_user created_at new db
  = Ok (if known (au_id new) db then db
        else with_users db
               (users db
                  ++ [{| u_id := au_id new;
                         u_email := au_email new;
                         u_name := json_text (au_raw_user_meta_data new) "name";
                         u_photo_url := None;
                         u_programme := None;
                         u_role := initial_role (au_email new);
                         u_created_at := created_at |}])%list).
Proof.
  unfold handle_new_user, users_row_ok, valid_user_roles. cbn [u_role u_id].
  fold (initial_role (au_email new)). fold roles.
  rewrite initial_role_valid. cbn [guard bind]. unfold known.
  now destruct (existsb _ (users db)).
Qed.

Lemma role_lookup_app (id : uuid) (db : database) (us : list users_row)
      (u : users_row) :
  get_current_user_role (authenticated id) (with_users db (us ++ [u])%list)
  = match get_current_user_role (authenticated id) (with_users db us) with
    | Some r => Some r
    | None => if String.eqb (u_id u) id then Some (u_role u) else None
    end.
Proof.
  unfold get_current_user_role. simpl. rewrite filter_app.
  destruct (filter _ us) as [|h t]; simpl; [|reflexivity].
  now destruct (String.eqb (u_id u) id).
Qed.

Lemma role_lookup_unknown (id : uuid) (db : database) :
  known id db = false -> get_current_user_role (authenticated id) db = None.
Proof.
  intros Hk. unfold get_current_user_role, known in *. simpl.
  rewrite filter_nothing; [reflexivity|].
  intros u Hu. destruct (String.eqb (u_id u) id) eqn:E; [|reflexivity].
  assert (existsb (fun u => String.eqb (u_id u) id) (users db) = true)
    by (apply existsb_exists; eauto).
  congruence.
Qed.

(** After the provisioning trigger the identity has a row; if it had none
    before, the role lookup of the new user now answers viewer (admin for
    the reserved address); the role lookup of every other user answers as
    before; and the keys and the role constraint still hold. *)
Theorem handle_new_user_then_role (created_at : option text)
        (new : auth_users_row) (db : database) :
  exists db',
    handle_new_user created_at new db = Ok db'
    /\ known (au_id new) db' = true
    /\ (known (au_id new) db = false ->
        get_current_user_role (authenticated (au_id new)) db'
        = Some (if String.eqb (au_email new) "sunny@example.com"
                then "admin" else "viewer"))
    /\ (forall other, other <> au_id new ->
        get_current_user_role (authenticated other) db'
        = get_current_user_role (authenticated other) db)
    /\ (consistent db -> consistent db').
Proof.
  eexists. split; [apply handle_new_user_result|].
  destruct (known (au_id new) db) eqn:Hk.
  - split; [assumption|]. split; [discriminate|]. auto.
  - split; [now apply known_after_append|]. split; [|split].
    + intros _. rewrite role_lookup_app, with_users_id.
      rewrite (role_lookup_unknown _ _ Hk). cbn [u_id u_role].
      now rewrite String.eqb_refl.
    + intros other Hne. rewrite role_lookup_app, with_users_id.
      cbn [u_id]. destruct (String.eqb_spec (au_id new) other);
        [congruence|].
      now destruct (get_current_user_role (authenticated other) db).
    + intros Hc. destruct Hc. constructor; simpl; try assumption.
      * unfold users_pkey in *. rewrite key_unique_app, cons_users_pkey0.
        cbn [u_id]. unfold known in Hk. now rewrite Hk.
      * rewrite forallb_app, cons_users_roles0. simpl.
        unfold valid_user_roles. cbn [u_role]. fold roles.
        now rewrite initial_role_valid.
Qed.

Lemma handle_new_user_then_role_witness :
  exists db',
    handle_new_user None (Sample.identity "N" "n@x.org") Sample.db = Ok db'
    /\ get_current_user_role (authenticated "N") db' = Some "viewer".
Proof.
  destruct (handle_new_user_then_role
              None (Sample.identity "N" "n@x.org") Sample.db)
    as (db' & Hrun & _ & Hrole & _).
  exists db'. split; [exact Hrun|]. exact (Hrole eq_refl).
Defined.

(** ** The volunteer carousel *)

Lemma neq3_true (x y : text) :
  Sql.is_true (neq3 (Some x) (Some y)) = true <-> x <> y.
Proof.
  unfold neq3. simpl. destruct (String.eqb_spec x y); simpl;
    split; congruence.
Qed.

Lemma firstn_In {A} (n : nat) (l : list A) (x : A) :
  In x (firstn n l) -> In x l.
Proof.
  revert l. induction n as [|n IH]; intros [|y l]; simpl; try tauto.
  intros [H|H]; auto.
Qed.

(** The carousel shows at most twenty users, none of them an admin or a
    viewer, each read from a [users] row the caller may read: so a caller
    who is not an admin is shown nobody but themself, and the public
    page, which has no signed-in caller, never renders the carousel. *)
Theorem carousel_shows (s : session) (db : database) :
  List.length (fetchVolunteers s db) <= 20
  /\ (forall v, In v (fetchVolunteers s db) ->
        exists u, In u (users db) /\ v = volunteer_of u
                  /\ u_role u <> "admin" /\ u_role u <> "viewer")
  /\ (non_admin s db ->
      forall v, In v (fetchVolunteers s db) -> auth_uid s = Some (v_id v))
  /\ VolunteerCarousel anon db = None.
Proof.
  assert (Hrows : forall v, In v (fetchVolunteers s db) ->
            exists u, In u (visible users_policies s db (users db))
                      /\ v = volunteer_of u
                      /\ u_role u <> "admin" /\ u_role u <> "viewer").
  { intros v Hv. unfold fetchVolunteers in Hv. apply firstn_In in Hv.
    apply in_map_iff in Hv as (u & <- & Hu).
    apply filter_In in Hu as [Hu Hrole]. apply andb_prop in Hrole as [Ha Hv].
    exists u. repeat split; auto; now apply neq3_true. }
  split; [|split; [|split]].
  - unfold fetchVolunteers. rewrite length_firstn. lia.
  - intros v Hv. destruct (Hrows v Hv) as (u & Hu & Hrest).
    exists u. split; [|exact Hrest]. now apply filter_In in Hu.
  - intros Hrole v Hv. destruct (Hrows v Hv) as (u & Hu & -> & _).
    now apply (users_visible_own s db u Hrole) in Hu.
  - unfold VolunteerCarousel, fetchVolunteers.
    replace (visible users_policies anon db (users db))
      with (@nil users_row); [reflexivity|].
    symmetry. apply filter_nothing.
    intros u _. rewrite users_select. unfold is_admin.
    now rewrite role_of_nobody.
Qed.

Lemma carousel_shows_witness :
  fetchVolunteers (authenticated "V") Sample.db
  = [volunteer_of (Sample.user "V" "v@x.org" "volunteer")]
  /\ forall v, In v (fetchVolunteers (authenticated "V") Sample.db) ->
               auth_uid (authenticated "V") = Some (v_id v).
Proof.
  split; [reflexivity|].
  apply (proj1 (proj2 (proj2 (carousel_shows (authenticated "V") Sample.db)))).
  unfold non_admin. vm_compute. discriminate.
Defined.

(** ** Subjects offered for a grade *)

Lemma digits_of_app (a b : string) :
  digits_of (a ++ b) = digits_of a ++ digits_of b.
Proof.
  induction a as [|c a IH]; simpl; [reflexivity|].
  destruct (is_digit c); simpl; now rewrite IH.
Qed.

(** Subjects are offered exactly when the digits of the grade, read as
    one number, give a grade from 6 to 12; text around the digits ("Grade
    7", "7th") makes no difference. *)
Theorem getSubjectOptions_grades (grade : string) :
  (getSubjectOptions grade <> []
   <-> exists n, parseInt (digits_of grade) = Some n /\ (6 <= n <= 12)%N)
  /\ (forall before after,
        digits_of before = EmptyString -> digits_of after = EmptyString ->
        getSubjectOptions (before ++ grade ++ after)
        = getSubjectOptions grade).
Proof.
  split.
  - unfold getSubjectOptions.
    destruct (parseInt (digits_of grade)) as [n|].
    + destruct (N.leb_spec 6 n), (N.leb_spec n 9), (N.leb_spec 10 n),
        (N.leb_spec n 12); simpl; split;
        try (intros _; exists n; split; [reflexivity|lia]);
        try (intros (m & [= <-] & Hm); lia);
        try discriminate;
        try (intros Hne; exfalso; apply Hne; reflexivity).
    + split; [intros Hne; exfalso; apply Hne; reflexivity|].
      intros (n & Hn & _). discriminate.
  - intros before after Hb Ha. unfold getSubjectOptions.
    rewrite !digits_of_app, Hb, Ha. simpl.
    replace (digits_of grade ++ EmptyString) with (digits_of grade);
      [reflexivity|].
    induction (digits_of grade) as [|c t IH]; simpl; [reflexivity|].
    now rewrite <- IH.
Qed.

Lemma getSubjectOptions_grades_witness :
  getSubjectOptions "Grade 7" = getSubjectOptions "7"
  /\ getSubjectOptions "Grade 13" = [].
Proof.
  split.
  - apply (proj2 (getSubjectOptions_grades "7") "Grade " EmptyString);
      reflexivity.
  - destruct (getSubjectOptions "Grade 13") as [|x l] eqn:E; [reflexivity|].
    assert (H : getSubjectOptions "Grade 13" <> []) by (rewrite E; discriminate).
    apply (proj1 (getSubjectOptions_grades "Grade 13")) in H
      as (n & Hn & Hrange).
    vm_compute in Hn. injection Hn as <-. lia.
Defined.

(** ** Progress per class on the syllabus page *)

Section ProgressFacts.

Variable later : text -> text -> bool.

Lemma same_class_eq (a b : option uuid) : same_class a b = true <-> a = b.
Proof.
  destruct a as [x|], b as [y|]; simpl; split; try congruence.
  - intros H. apply String.eqb_eq in H. now subst.
  - intros [= ->]. apply String.eqb_refl.
Qed.

Lemma record_entry_class (e : SyllabusEntry) (p : ClassProgress) :
  cp_class_id (record_entry later e p) = cp_class_id p.
Proof. unfold record_entry. now destruct (e_is_planned e). Qed.

Lemma record_entry_sessions (e : SyllabusEntry) (p : ClassProgress) :
  sessions (record_entry later e p) = S (sessions p).
Proof.
  unfold record_entry, sessions. destruct (e_is_planned e); simpl; lia.
Qed.

Lemma record_entry_balance (e : SyllabusEntry) (p : ClassProgress) :
  totalSessions p = approvedSessions p + pendingApproval p ->
  totalSessions (record_entry later e p)
  = approvedSessions (record_entry later e p)
    + pendingApproval (record_entry later e p).
Proof.
  unfold record_entry. destruct (e_is_planned e), (e_approved e); simpl; lia.
Qed.

(** Updating the one progress of a class adds one session to the sum. *)
Lemma sessions_after_update (e : SyllabusEntry) (m : list ClassProgress) :
  NoDup (map cp_class_id m) ->
  In (e_class_id e) (map cp_class_id m) ->
  list_sum (map sessions
              (map (fun p => if same_class (cp_class_id p) (e_class_id e)
                             then record_entry later e p else p) m))
  = S (list_sum (map sessions m)).
Proof.
  induction m as [|p m IH]; simpl; [intros _ []|].
  intros Hnd Hin. inversion Hnd as [|k ks Hnot Hnd']; subst.
  destruct (same_class (cp_class_id p) (e_class_id e)) eqn:E.
  - apply same_class_eq in E. rewrite record_entry_sessions. simpl.
    replace (map (fun p => if same_class (cp_class_id p) (e_class_id e)
                           then record_entry later e p else p) m)
      with m; [reflexivity|].
    symmetry. transitivity (map (fun p => p) m); [|apply map_id].
    apply map_ext_in. intros q Hq.
    destruct (same_class (cp_class_id q) (e_class_id e)) eqn:E';
      [|reflexivity].
    apply same_class_eq in E'. elim Hnot. rewrite E, <- E'.
    now apply in_map.
  - destruct Hin as [Hin|Hin].
    + apply same_class_eq in Hin. congruence.
    + rewrite IH by assumption. lia.
Qed.

Lemma progress_step_classes (m : list ClassProgress) (e : SyllabusEntry) :
  map cp_class_id (progress_step later m e)
  = if existsb (fun p => same_class (cp_class_id p) (e_class_id e)) m
    then map cp_class_id m
    else (map cp_class_id m ++ [e_class_id e])%list.
Proof.
  unfold progress_step. rewrite map_map.
  transitivity (map cp_class_id
                    (if existsb (fun p => same_class (cp_class_id p)
                                                     (e_class_id e)) m
                     then m else (m ++ [fresh_progress e])%list)).
  - apply map_ext. intros p.
    destruct (same_class _ _); [apply record_entry_class|reflexivity].
  - destruct (existsb _ m); [reflexivity|]. now rewrite map_app.
Qed.

Lemma held_iff (m : list ClassProgress) (k : option uuid) :
  existsb (fun p => same_class (cp_class_id p) k) m = true
  <-> In k (map cp_class_id m).
Proof.
  rewrite existsb_exists, in_map_iff. split.
  - intros (p & Hp & E). apply same_class_eq in E. eauto.
  - intros (p & E & Hp). exists p. split; [assumption|].
    now apply same_class_eq.
Qed.

Lemma progress_step_ok (m : list ClassProgress) (n : nat)
      (e : SyllabusEntry) :
  progress_ok m n ->
  progress_ok (progress_step later m e) (S n)
  /\ In (e_class_id e) (map cp_class_id (progress_step later m e))
  /\ incl (map cp_class_id m) (map cp_class_id (progress_step later m e)).
Proof.
  intros [Hnd Hbal Hsum].
  pose proof (progress_step_classes m e) as Hkeys.
  destruct (existsb (fun p => same_class (cp_class_id p) (e_class_id e)) m)
    eqn:Hheld.
  - assert (Hin : In (e_class_id e) (map cp_class_id m))
      by now apply held_iff.
    split; [constructor|split].
    + now rewrite Hkeys.
    + unfold progress_step. rewrite Hheld. intros p Hp.
      apply in_map_iff in Hp as (q & <- & Hq).
      destruct (same_class _ _); [apply record_entry_balance|]; auto.
    + unfold progress_step. rewrite Hheld.
      rewrite sessions_after_update by assumption. now rewrite Hsum.
    + now rewrite Hkeys.
    + rewrite Hkeys. apply incl_refl.
  - assert (Hnew : ~ In (e_class_id e) (map cp_class_id m)).
    { intros Hin. apply held_iff in Hin. congruence. }
    assert (Hnd' : NoDup (map cp_class_id (m ++ [fresh_progress e])%list)).
    { rewrite map_app. simpl. apply NoDup_app; auto.
      - constructor; [intros []|constructor].
      - intros k Hk [<-|[]]. contradiction. }
    split; [constructor|split].
    + rewrite Hkeys. now rewrite map_app in Hnd'.
    + unfold progress_step. rewrite Hheld. intros p Hp.
      apply in_map_iff in Hp as (q & <- & Hq).
      assert (Hq' : totalSessions q = approvedSessions q + pendingApproval q).
      { apply in_app_or in Hq as [Hq|[<-|[]]]; [auto|reflexivity]. }
      destruct (same_class _ _); [apply record_entry_balance|]; auto.
    + unfold progress_step. rewrite Hheld.
      rewrite sessions_after_update.
      * rewrite map_app, list_sum_app, Hsum. simpl. lia.
      * exact Hnd'.
      * rewrite map_app. apply in_or_app. right. now left.
    + rewrite Hkeys. apply in_or_app. right. now left.
    + rewrite Hkeys. apply incl_appl, incl_refl.
Qed.

Lemma classProgress_from (entries : list SyllabusEntry)
      (m : list ClassProgress) (n : nat) :
  progress_ok m n ->
  progress_ok (fold_left (progress_step later) entries m)
              (n + List.length entries)
  /\ incl (map cp_class_id m ++ map e_class_id entries)
          (map cp_class_id (fold_left (progress_step later) entries m)).
Proof.
  revert m n. induction entries as [|e entries IH]; intros m n Hok; simpl.
  - rewrite Nat.add_0_r, app_nil_r. split; [assumption|apply incl_refl].
  - destruct (progress_step_ok m n e Hok) as (Hok' & Hin & Hincl).
    destruct (IH _ _ Hok') as (Hfinal & Hincl').
    rewrite Nat.add_succ_r. split; [exact Hfinal|].
    intros k Hk. apply Hincl'. apply in_or_app.
    apply in_app_or in Hk as [Hk|[<-|Hk]]; auto.
Qed.

(** The progress list of the syllabus page: one progress per class that
    has an entry; in each, the sessions held are the approved ones plus
    the ones pending approval; and planned and held sessions of all
    classes add up to the number of entries. *)
Theorem classProgress_counts (entries : list SyllabusEntry) :
  let progress := classProgress later entries in
  NoDup (map cp_class_id progress)
  /\ (forall e, In e entries -> In (e_class_id e) (map cp_class_id progress))
  /\ (forall p, In p progress ->
        totalSessions p = approvedSessions p + pendingApproval p)
  /\ list_sum (map (fun p => plannedSessions p + totalSessions p) progress)
     = List.length entries.
Proof.
  assert (H0 : progress_ok [] 0)
    by (constructor; [constructor|intros p []|reflexivity]).
  destruct (classProgress_from entries [] 0 H0) as ([Hnd Hbal Hsum] & Hincl).
  unfold classProgress. simpl. repeat split; auto.
  intros e He. apply Hincl. simpl. now apply in_map.
Qed.

End ProgressFacts.

(** ** From assignment to visibility *)

(** What a run of the assignment handler that reported no error has
    stored. *)
Lemma handleClassAssignment_stored (s : session)
      (class_uuid assignment_uuid : uuid) (created_at : option text)
      (userId : uuid) (form : option assignment_form) (db db1 : database) :
  handleClassAssignment s class_uuid assignment_uuid created_at
                        userId form db = (db1, None) ->
  users db1 = users db
  /\ exists a c,
       form = Some a
       /\ In c (classes db1)
       /\ c_grade c = grade a /\ c_subject c = subject a
       /\ has_assignment userId (c_id c) db1.
Proof.
  intros H. unfold handleClassAssignment in H.
  destruct form as [a|]; [|discriminate].
  destruct (_ || _); [discriminate|].
  destruct (find_class s a db) as [[c|]|] eqn:Hfind; [| |discriminate].
  - destruct (upsert_class_assignments s _ db) as [db2|] eqn:Hup;
      [|discriminate].
    injection H as ->.
    apply upsert_class_assignments_ok in Hup
      as (Hadmin & Hus & Hcl & _ & r & Hr & Hu & Hk).
    split; [assumption|]. exists a, c.
    unfold find_class in Hfind. apply maybeSingle_inv in Hfind.
    assert (Hc : In c (filter (form_matches a)
                              (visible classes_policies s db (classes db))))
      by (rewrite Hfind; now left).
    apply filter_In in Hc as [Hc Hm]. apply filter_In in Hc as [Hc _].
    apply andb_prop in Hm as [Hg Hs].
    apply String.eqb_eq in Hg, Hs. rewrite Hcl.
    repeat split; auto. exists r. auto.
  - cbn [bind] in H.
    destruct (insert_classes true s _ db) as [db'|] eqn:Hins;
      cbn [bind] in H; [|discriminate].
    destruct (upsert_class_assignments s _ db') as [db2|] eqn:Hup;
      [|discriminate].
    injection H as ->.
    apply insert_classes_ok in Hins.
    apply upsert_class_assignments_ok in Hup
      as (_ & Hus & Hcl & _ & r & Hr & Hu & Hk).
    subst db'. split; [exact Hus|].
    eexists a, _. split; [reflexivity|]. rewrite Hcl. simpl classes.
    split; [apply in_or_app; right; now left|].
    split; [reflexivity|]. split; [reflexivity|].
    exists r. auto.
Qed.

(** Granting: once the assignment handler has gone through for a user,
    that user reads the class of the form. *)
Theorem assignment_makes_class_visible (s : session)
        (class_uuid assignment_uuid : uuid) (created_at : option text)
        (userId : uuid) (form : option assignment_form) (db db1 : database) :
  handleClassAssignment s class_uuid assignment_uuid created_at
                        userId form db = (db1, None) ->
  exists a c,
    form = Some a
    /\ c_grade c = grade a /\ c_subject c = subject a
    /\ In c (visible classes_policies (authenticated userId) db1
                     (classes db1)).
Proof.
  intros H. apply handleClassAssignment_stored in H
    as (_ & a & c & Hform & Hc & Hg & Hs & Hassigned).
  exists a, c. repeat split; auto.
  apply filter_In. split; [assumption|].
  rewrite classes_select. apply orb_true_iff. right.
  now apply assigned_iff.
Qed.

Lemma assignment_makes_class_visible_witness :
  exists a c,
    Some {| grade := "Grade 7"; subject := "Science" |} = Some a
    /\ c_grade c = grade a /\ c_subject c = subject a
    /\ In c (visible classes_policies (authenticated "W")
               (fst (handleClassAssignment (authenticated "A") "c9" "a9" None
                       "W" (Some {| grade := "Grade 7"; subject := "Science" |})
                       Sample.db))
               (classes
                  (fst (handleClassAssignment (authenticated "A") "c9" "a9"
                          None "W"
                          (Some {| grade := "Grade 7"; subject := "Science" |})
                          Sample.db)))).
Proof.
  apply (assignment_makes_class_visible
           (authenticated "A") "c9" "a9" None "W" _ Sample.db).
  reflexivity.
Defined.

(** Revoking: once an admin has removed the assignment of a class from a
    user who is not an admin, that user reads neither the class nor any
    syllabus entry or announcement of it. *)
Theorem removal_hides_class (s : session) (userId classId : uuid)
        (db : database) (volunteers : list UserWithClasses) :
  get_current_user_role s db = Some "admin" ->
  non_admin (authenticated userId) db ->
  let db' := fst (fst (handleRemoveAssignment s userId classId db
                                              volunteers)) in
  (forall c, c_id c = classId ->
             ~ In c (visible classes_policies (authenticated userId) db'
                             (classes db')))
  /\ (forall se, se_class_id se = Some classId ->
                 ~ In se (visible syllabus_entries_policies
                                  (authenticated userId) db'
                                  (syllabus_entries db')))
  /\ (forall a, an_class_id a = Some classId ->
                ~ In a (visible announcements_policies
                                (authenticated userId) db'
                                (announcements db'))).
Proof.
  intros Hadmin Hrole db'.
  assert (Hgone : ~ has_assignment userId classId db').
  { intros (ca & Hin & Hu & Hk). subst db'. unfold handleRemoveAssignment in Hin.
    cbn [fst] in Hin.
    apply (admin_removal_rows s userId classId db ca Hadmin) in Hin
      as [_ Hin].
    auto. }
  assert (Hrole' : Sql.is_true (is_admin (authenticated userId) db') = false).
  { rewrite (is_admin_users (authenticated userId) db db') by reflexivity.
    now apply non_admin_false. }
  unfold visible. split; [|split].
  - intros c Hc Hin. apply filter_In in Hin as [_ Hin].
    rewrite classes_select, Hrole', Hc in Hin. simpl in Hin.
    now apply assigned_iff in Hin.
  - intros se Hse Hin. apply filter_In in Hin as [_ Hin].
    rewrite syllabus_entries_select, Hrole', Hse in Hin. simpl in Hin.
    now apply assigned_iff in Hin.
  - intros a Ha Hin. apply filter_In in Hin as [_ Hin].
    rewrite announcements_select, Hrole', Ha in Hin. simpl in Hin.
    now apply assigned_iff in Hin.
Qed.

Lemma removal_hides_class_witness :
  ~ In (Sample.class "K" "Grade 7" "Science")
       (visible classes_policies (authenticated "V")
          (fst (fst (handleRemoveAssignment (authenticated "A") "V" "K"
                                            Sample.db [])))
          (classes (fst (fst (handleRemoveAssignment (authenticated "A")
                                                     "V" "K"
                                                     Sample.db []))))).
Proof.
  assert (Hrole : non_admin (authenticated "V") Sample.db)
    by (unfold non_admin; vm_compute; discriminate).
  apply (proj1 (removal_hides_class (authenticated "A") "V" "K" Sample.db []
                                    eq_refl Hrole)).
  reflexivity.
Defined.
